(** * Burnvelope: one-time secret sharing

    A shallow embedding of the Burnvelope protocol code:
    - [src/lib/crypto.ts]: the client encryption utilities
      ([generateKey], [encrypt], [decrypt], [isValidKey] and the base64
      helpers);
    - [POST /api/secrets]: the handler that validates, envelope-encrypts
      and stores a secret;
    - [GET /api/secrets/:id]: the handler that retrieves and deletes it.

    Conventions.
    - A JavaScript string whose characters are one-byte code units (an id,
      a key, base64 text, a "binary string" of [btoa] and [atob]) is a
      [string].  The secret itself is any JavaScript string: a [text], the
      list of its UTF-16 code units.  A [Uint8Array] / [ArrayBuffer] is a
      [list byte].
    - The Workers KV namespace is a [gmap] from keys to a stored text and
      its [expirationTtl].  Handlers are written as trees of KV operations
      ([action]); one interpreter runs a handler to completion, another
      one interleaves several handlers at their [await] points.
    - The Web platform primitives that the repository calls but does not
      implement (AES-GCM, HKDF, [TextEncoder], [JSON]) are the fields of
      the class [WebPlatform]; their contracts are the class
      [WebPlatformLaws].  [btoa] and [atob] are written out, following the
      platform's definition, since the key-shape check depends on their
      padding rules.
    - What a handler draws from its surroundings (random bytes, [nanoid],
      the clock) is an argument.  Numbers are integers.  A call on the
      namespace always completes; the response headers and the console
      output are left out. *)

From Stdlib Require Import ZArith NArith Ascii String.
From Stdlib.Strings Require Import Byte.
From stdpp Require Import base option list gmap strings.

Local Open Scope string_scope.
Local Open Scope Z_scope.

(* ===================================================================== *)
(** ** Platform: [btoa] and [atob] *)
(* ===================================================================== *)

Module Base64.

(** The base64 alphabet, as a map from a 6-bit value to its character. *)
Definition b64char (n : N) : ascii :=
  if (n <? 26)%N then ascii_of_N (65 + n)
  else if (n <? 52)%N then ascii_of_N (71 + n)
  else if (n <? 62)%N then ascii_of_N (n - 4)
  else if (n =? 62)%N then "+"%char
  else "/"%char.

(** The inverse table; [None] for a character outside the alphabet. *)
Definition b64val (c : ascii) : option N :=
  let n := N_of_ascii c in
  if ((65 <=? n) && (n <=? 90))%N then Some (n - 65)%N
  else if ((97 <=? n) && (n <=? 122))%N then Some (n - 71)%N
  else if ((48 <=? n) && (n <=? 57))%N then Some (n + 4)%N
  else if (n =? 43)%N then Some 62%N
  else if (n =? 47)%N then Some 63%N
  else None.

Definition pad : ascii := "="%char.

(** [btoa]: three bytes give four characters; a last group of one or two
    bytes is padded with [=]. *)
Fixpoint btoa (s : string) : string :=
  match s with
  | EmptyString => EmptyString
  | String a EmptyString =>
      let x := N_of_ascii a in
      String (b64char (x / 4))
        (String (b64char ((x mod 4) * 16))
           (String pad (String pad EmptyString)))
  | String a (String b EmptyString) =>
      let x := N_of_ascii a in
      let y := N_of_ascii b in
      String (b64char (x / 4))
        (String (b64char ((x mod 4) * 16 + y / 16))
           (String (b64char ((y mod 16) * 4))
              (String pad EmptyString)))
  | String a (String b (String c rest)) =>
      let x := N_of_ascii a in
      let y := N_of_ascii b in
      let z := N_of_ascii c in
      String (b64char (x / 4))
        (String (b64char ((x mod 4) * 16 + y / 16))
           (String (b64char ((y mod 16) * 4 + z / 64))
              (String (b64char (z mod 64)) (btoa rest))))
  end.

(** Decoding of a final group of two characters: one byte, the four
    spare bits are dropped. *)
Definition dec2 (w x : ascii) : option string :=
  p ← b64val w; q ← b64val x;
  Some (String (ascii_of_N (p * 4 + q / 16)) EmptyString).

(** Decoding of a final group of three characters: two bytes, the two
    spare bits are dropped. *)
Definition dec3 (w x y : ascii) : option string :=
  p ← b64val w; q ← b64val x; r ← b64val y;
  Some (String (ascii_of_N (p * 4 + q / 16))
          (String (ascii_of_N ((q mod 16) * 16 + r / 4)) EmptyString)).

(** Decoding of a full group of four characters, followed by [tl]. *)
Definition dec4 (w x y z : ascii) (tl : option string) : option string :=
  p ← b64val w; q ← b64val x; r ← b64val y; t ← b64val z; rest ← tl;
  Some (String (ascii_of_N (p * 4 + q / 16))
          (String (ascii_of_N ((q mod 16) * 16 + r / 4))
             (String (ascii_of_N ((r mod 4) * 64 + t)) rest))).

(** The forgiving decoder on a text without white space: a length of
    [1 mod 4] fails; when the length is a multiple of four, one or two
    final [=] are dropped; any other character outside the alphabet
    fails. *)
Fixpoint decode (s : string) : option string :=
  match s with
  | EmptyString => Some EmptyString
  | String _ EmptyString => None
  | String w (String x EmptyString) => dec2 w x
  | String w (String x (String y EmptyString)) => dec3 w x y
  | String w (String x (String y (String z rest))) =>
      match rest with
      | EmptyString =>
          if Ascii.eqb z pad
          then (if Ascii.eqb y pad then dec2 w x else dec3 w x y)
          else dec4 w x y z (Some EmptyString)
      | _ => dec4 w x y z (decode rest)
      end
  end.

Definition is_ascii_whitespace (c : ascii) : bool :=
  let n := N_of_ascii c in
  ((n =? 9) || (n =? 10) || (n =? 12) || (n =? 13) || (n =? 32))%N.

Fixpoint strip_whitespace (s : string) : string :=
  match s with
  | EmptyString => EmptyString
  | String c r =>
      if is_ascii_whitespace c then strip_whitespace r
      else String c (strip_whitespace r)
  end.

(** [atob]: [None] stands for the [InvalidCharacterError] it throws. *)
Definition atob (s : string) : option string :=
  decode (strip_whitespace s).

(** A character of the alphabet is none of [=], [-], [_], nor white
    space. *)
Definition ordinaryb (c : ascii) : bool :=
  negb (Ascii.eqb c "=") && negb (Ascii.eqb c "-") &&
  negb (Ascii.eqb c "_") && negb (is_ascii_whitespace c).

Definition ordinary (c : ascii) : Prop :=
  Ascii.eqb c "=" = false ∧ Ascii.eqb c "-" = false ∧
  Ascii.eqb c "_" = false ∧ is_ascii_whitespace c = false.

End Base64.

(** Division and remainder by constants. *)
Ltac euclid := zify; Z.to_euclidean_division_equations; lia.

(* ===================================================================== *)
(** ** Platform: the primitives the repository calls *)
(* ===================================================================== *)

(** The value persisted for one secret ([interface StoredSecret]). *)
Record StoredSecret := { data : string; createdAt : Z }.

(** A property of every character of a string. *)
Fixpoint string_forallb (f : ascii → bool) (s : string) : bool :=
  match s with
  | EmptyString => true
  | String c r => f c && string_forallb f r
  end.

(** A JavaScript string in general: its UTF-16 code units. *)
Abbreviation text := (list N).

Definition is_text (t : text) : bool := forallb (λ u, u <? 65536)%N t.

(** The one-byte string as a text. *)
Definition text_of_string (s : string) : text :=
  N_of_ascii <$> list_ascii_of_string s.

(** U+FEFF, the byte order mark, and U+FFFD, the replacement character. *)
Definition BOM : N := 65279.
Definition REPLACEMENT : N := 65533.

Definition is_high_surrogate (u : N) : bool := ((55296 <=? u) && (u <=? 56319))%N.
Definition is_low_surrogate (u : N) : bool := ((56320 <=? u) && (u <=? 57343))%N.

(** Platform: [String.prototype.toWellFormed], which is also what the
    conversion to a [USVString] does to the argument of
    [TextEncoder.encode]: a surrogate that is not part of a pair becomes
    U+FFFD. *)
Fixpoint toWellFormed (t : text) : text :=
  match t with
  | [] => []
  | u :: r =>
      if is_high_surrogate u then
        match r with
        | v :: r' =>
            if is_low_surrogate v then u :: v :: toWellFormed r'
            else REPLACEMENT :: toWellFormed r
        | [] => [REPLACEMENT]
        end
      else if is_low_surrogate u then REPLACEMENT :: toWellFormed r
      else u :: toWellFormed r
  end.

(** Platform: what [new TextDecoder()], whose [ignoreBOM] is false, does
    to a leading byte order mark. *)
Definition strip_BOM (t : text) : text :=
  match t with
  | u :: r => if (u =? BOM)%N then r else t
  | [] => []
  end.

(** A character below 128. *)
Definition is_ascii (c : ascii) : bool := (N_of_ascii c <? 128)%N.

(** Web Crypto, the text codecs and JSON, as the code uses them.  A key is
    its raw bytes.  [aes_gcm_encrypt key iv plaintext] is the ciphertext
    followed by its 128-bit tag; [aes_gcm_decrypt] is [None] where
    [crypto.subtle.decrypt] rejects with an [OperationError].
    [hkdf_sha256 ikm salt info] is the 256-bit key that [deriveKey]
    yields.  [JSON_parse] is [None] where [JSON.parse] throws.
    [TextEncoder.encode] and [TextDecoder.decode] are there at the two
    kinds of text of the model: [TextEncoder_encode] and
    [TextDecoder_decode] where the code has a one-byte string (the server,
    with the base64 text it is sent), [TextEncoder_encode_text] and
    [TextDecoder_decode_text] where it has any text (the client, with the
    secret). *)
Class WebPlatform := {
  aes_gcm_encrypt : list byte → list byte → list byte → list byte;
  aes_gcm_decrypt : list byte → list byte → list byte → option (list byte);
  hkdf_sha256 : list byte → list byte → list byte → list byte;
  TextEncoder_encode : string → list byte;
  TextDecoder_decode : list byte → string;
  TextEncoder_encode_text : text → list byte;
  TextDecoder_decode_text : list byte → text;
  JSON_stringify : StoredSecret → string;
  JSON_parse : string → option StoredSecret;
}.

(** The contracts of these primitives that the protocol relies on.  The
    text codec is UTF-8: it gives back a text of ASCII characters as it
    is; in general it gives back the well-formed version of a text, less
    one leading byte order mark. *)
Class WebPlatformLaws (W : WebPlatform) : Prop := {
  aes_gcm_correct key iv plaintext :
    aes_gcm_decrypt key iv (aes_gcm_encrypt key iv plaintext) = Some plaintext;
  text_codec_ascii s :
    string_forallb is_ascii s = true →
    TextDecoder_decode (TextEncoder_encode s) = s;
  text_codec t :
    is_text t = true →
    TextDecoder_decode_text (TextEncoder_encode_text t)
    = strip_BOM (toWellFormed t);
  JSON_parse_stringify r :
    JSON_parse (JSON_stringify r) = Some r;
  JSON_parse_empty :
    JSON_parse "" = None;
}.

(** [crypto.subtle.importKey('raw', rawKey, {name: 'AES-GCM'}, ...)]:
    a raw AES key has 128, 192 or 256 bits, otherwise a [DataError]. *)
Definition importKey_raw_AES (rawKey : list byte) : option (list byte) :=
  let n := length rawKey in
  if ((n =? 16) || (n =? 24) || (n =? 32))%nat then Some rawKey else None.

(* ===================================================================== *)
(** ** [src/lib/crypto.ts] *)
(* ===================================================================== *)

Definition IV_LENGTH : nat := 12.

(** [s.replace(/c/g, d)] for a single character [c]. *)
Fixpoint replace_all (c d : ascii) (s : string) : string :=
  match s with
  | EmptyString => EmptyString
  | String a r => String (if Ascii.eqb a c then d else a) (replace_all c d r)
  end.

(** [s.replace(/=+$/, '')]: the final run of [=] is removed. *)
Fixpoint strip_padding (s : string) : string :=
  match s with
  | EmptyString => EmptyString
  | String a r =>
      match strip_padding r with
      | EmptyString => if Ascii.eqb a "=" then EmptyString else String a EmptyString
      | r' => String a r'
      end
  end.

(** ['='.repeat(n)] *)
Fixpoint repeat_eq (n : nat) : string :=
  match n with
  | O => EmptyString
  | S m => String "=" (repeat_eq m)
  end.

(** The loop [binary += String.fromCharCode(bytes[i])] is
    [string_of_list_byte]. *)
Definition arrayBufferToBase64 (buffer : list byte) : string :=
  Base64.btoa (string_of_list_byte buffer).

(** The loop [bytes[i] = binary.charCodeAt(i)] is [list_byte_of_string]. *)
Definition base64ToArrayBuffer (base64 : string) : option (list byte) :=
  binary ← Base64.atob base64;
  Some (list_byte_of_string binary).

Definition arrayBufferToBase64url (buffer : list byte) : string :=
  let base64 := arrayBufferToBase64 buffer in
  strip_padding (replace_all "/" "_" (replace_all "+" "-" base64)).

Definition base64urlToArrayBuffer (base64url : string) : option (list byte) :=
  let base64 := replace_all "_" "/" (replace_all "-" "+" base64url) in
  let padding := (String.length base64 mod 4)%nat in
  let base64 :=
    if (padding =? 0)%nat then base64
    else base64 ++ repeat_eq (4 - padding) in
  base64ToArrayBuffer base64.

Definition isValidKey (key : string) : bool :=
  match base64urlToArrayBuffer key with
  | Some buffer => (length buffer =? 32)%nat
  | None => false
  end.

(** [generateKey]: [rawKey] is the 256-bit key that
    [crypto.subtle.generateKey] draws and [exportKey] returns. *)
Definition generateKey (rawKey : list byte) : string :=
  arrayBufferToBase64url rawKey.

Definition importKey (keyBase64url : string) : option (list byte) :=
  rawKey ← base64urlToArrayBuffer keyBase64url;
  importKey_raw_AES rawKey.

(** What the two replacements of [arrayBufferToBase64url] do to one
    character, and the two of [base64urlToArrayBuffer]. *)
Definition to_url (c : ascii) : ascii :=
  let c := if Ascii.eqb c "+" then "-"%char else c in
  if Ascii.eqb c "/" then "_"%char else c.

Definition from_url (c : ascii) : ascii :=
  let c := if Ascii.eqb c "-" then "+"%char else c in
  if Ascii.eqb c "_" then "/"%char else c.

(** The padding step of [base64urlToArrayBuffer]. *)
Definition repad (base64 : string) : string :=
  let padding := (String.length base64 mod 4)%nat in
  if (padding =? 0)%nat then base64
  else base64 ++ repeat_eq (4 - padding).

Section Crypto.
Context `{W : WebPlatform}.

(** [encrypt]: [iv] is the nonce drawn by [crypto.getRandomValues]. *)
Definition encrypt (plaintext : text) (keyBase64url : string) (iv : list byte)
  : option string :=
  key ← importKey keyBase64url;
  let data := TextEncoder_encode_text plaintext in
  let ciphertext := aes_gcm_encrypt key iv data in
  let combined := (iv ++ ciphertext)%list in
  Some (arrayBufferToBase64 combined).

Definition decrypt (ciphertextBase64 keyBase64url : string) : option text :=
  key ← importKey keyBase64url;
  combinedArray ← base64ToArrayBuffer ciphertextBase64;
  let iv := take IV_LENGTH combinedArray in
  let ciphertext := drop IV_LENGTH combinedArray in
  decrypted ← aes_gcm_decrypt key iv ciphertext;
  Some (TextDecoder_decode_text decrypted).

(** The label of the envelope key derivation. *)
Definition hkdf_info : list byte :=
  TextEncoder_encode "burnvelope-server-encryption".

(** [serverEncrypt] of [POST /api/secrets]: [salt] and [iv] are the two
    draws of [crypto.getRandomValues]. *)
Definition serverEncrypt (data keyBase64 : string) (salt iv : list byte)
  : option string :=
  keyMaterial ← base64ToArrayBuffer keyBase64;
  let key := hkdf_sha256 keyMaterial salt hkdf_info in
  let ciphertext := aes_gcm_encrypt key iv (TextEncoder_encode data) in
  let combined := (salt ++ iv ++ ciphertext)%list in
  Some (arrayBufferToBase64 combined).

(** [serverDecrypt] of [GET /api/secrets/:id]. *)
Definition serverDecrypt (encryptedData keyBase64 : string) : option string :=
  combined ← base64ToArrayBuffer encryptedData;
  let salt := take 16 combined in
  let iv := take 12 (drop 16 combined) in
  let ciphertext := drop 28 combined in
  keyMaterial ← base64ToArrayBuffer keyBase64;
  let key := hkdf_sha256 keyMaterial salt hkdf_info in
  decrypted ← aes_gcm_decrypt key iv ciphertext;
  Some (TextDecoder_decode decrypted).

End Crypto.

(* ===================================================================== *)
(** ** The KV namespace and the handlers' effects *)
(* ===================================================================== *)

(** A key holds the stored text and the [expirationTtl] it was put with.
    Expiry itself belongs to the store: it is the event [Expire] below. *)
Abbreviation KVNamespace := (gmap string (string * Z)).

(** One call on the namespace. *)
Inductive kv_op :=
| OpGet (key : string)
| OpDelete (key : string)
| OpPut (key value : string) (expirationTtl : Z).

(** A handler is a tree of KV calls; each node is one [await] on the
    namespace.  [Throw] is an exception that propagates. *)
Inductive action (A : Type) : Type :=
| Return (a : A)
| Throw
| KVGet (key : string) (k : option string → action A)
| KVDelete (key : string) (k : action A)
| KVPut (key value : string) (expirationTtl : Z) (k : action A).
Arguments Return {A} a.
Arguments Throw {A}.
Arguments KVGet {A} key k.
Arguments KVDelete {A} key k.
Arguments KVPut {A} key value expirationTtl k.

(** [try { p } catch { h }] *)
Fixpoint try_catch {A} (p h : action A) : action A :=
  match p with
  | Return a => Return a
  | Throw => h
  | KVGet key k => KVGet key (λ v, try_catch (k v) h)
  | KVDelete key k => KVDelete key (try_catch k h)
  | KVPut key value ttl k => KVPut key value ttl (try_catch k h)
  end.

(** A synchronous or crypto step that may throw. *)
Definition or_throw {A B} (o : option A) (k : A → action B) : action B :=
  match o with
  | Some a => k a
  | None => Throw
  end.

(** One [await] on the namespace. *)
Definition step {A} (p : action A) (kv : KVNamespace)
  : action A * KVNamespace :=
  match p with
  | KVGet key k => (k (fst <$> kv !! key), kv)
  | KVDelete key k => (k, delete key kv)
  | KVPut key value ttl k => (k, <[key := (value, ttl)]> kv)
  | _ => (p, kv)
  end.

(** A handler run alone, from its first line to its response: the result
    ([None] for an uncaught exception), the namespace afterwards and the
    calls made on it, in order. *)
Fixpoint run {A} (p : action A) (kv : KVNamespace)
  : option A * KVNamespace * list kv_op :=
  match p with
  | Return a => (Some a, kv, [])
  | Throw => (None, kv, [])
  | KVGet key k =>
      let '(r, kv', log) := run (k (fst <$> kv !! key)) kv in
      (r, kv', OpGet key :: log)
  | KVDelete key k =>
      let '(r, kv', log) := run k (delete key kv) in
      (r, kv', OpDelete key :: log)
  | KVPut key value ttl k =>
      let '(r, kv', log) := run k (<[key := (value, ttl)]> kv) in
      (r, kv', OpPut key value ttl :: log)
  end.

(** Several requests in flight on one namespace. *)
Record world (A : Type) := World {
  store : KVNamespace;
  requests : list (action A);
}.
Arguments World {A} store requests.
Arguments store {A} w.
Arguments requests {A} w.

(** Request [i] resumes and runs up to its next [await]. *)
Definition resume {A} (i : nat) (w : world A) : world A :=
  match requests w !! i with
  | Some p =>
      let '(p', kv') := step p (store w) in
      World kv' (<[i := p']> (requests w))
  | None => w
  end.

(** The requests resume in the order the schedule gives. *)
Definition interleave {A} (schedule : list nat) (w : world A) : world A :=
  foldl (λ w i, resume i w) w schedule.

(** A request that has run to its end. *)
Definition finished {A} (r : option A) : action A :=
  match r with
  | Some a => Return a
  | None => Throw
  end.

(* ===================================================================== *)
(** ** Responses *)
(* ===================================================================== *)

(** The JSON bodies of the two endpoints.  [expiresAt] is kept as epoch
    milliseconds, the argument of [new Date(...)]. *)
Inductive ResponseBody :=
| ErrorResponse (error : string)
| CreateSecretResponse (id : string) (expiresAt : Z)
| GetSecretResponse (encryptedData : string).

Record Response := { body : ResponseBody; status : Z }.

Definition jsonResponse (data : ResponseBody) (status : Z) : Response :=
  {| body := data; status := status |}.

(** The four answers of a retrieval. *)
Definition invalid_id : Response :=
  jsonResponse (ErrorResponse "Invalid secret ID") 400.
Definition not_found : Response :=
  jsonResponse (ErrorResponse "Secret not found or already viewed") 404.
Definition retrieve_failed : Response :=
  jsonResponse (ErrorResponse "Failed to retrieve secret") 500.
Definition delivered (clientEncrypted : string) : Response :=
  jsonResponse (GetSecretResponse clientEncrypted) 200.

(* ===================================================================== *)
(** ** [GET /api/secrets/:id] *)
(* ===================================================================== *)

Section Get.
Context `{W : WebPlatform}.

(** [ENCRYPTION_KEY] is the binding [env.ENCRYPTION_KEY]; the namespace
    is [env.SECRETS]. *)
Definition onRequestGet (ENCRYPTION_KEY : string) (id : string)
  : action Response :=
  try_catch
    (if (String.eqb id "") || (String.length id <? 6)%nat
        || (12 <? String.length id)%nat
     then Return (jsonResponse (ErrorResponse "Invalid secret ID") 400)
     else
       let key := "secret:" ++ id in
       KVGet key (λ stored,
         match stored with
         | None | Some EmptyString =>
             Return (jsonResponse
                       (ErrorResponse "Secret not found or already viewed") 404)
         | Some stored =>
             or_throw (JSON_parse stored) (λ secretData,
               KVDelete key
                 (or_throw (serverDecrypt (data secretData) ENCRYPTION_KEY)
                    (λ clientEncrypted,
                       Return (jsonResponse
                                 (GetSecretResponse clientEncrypted) 200))))
         end))
    (Return (jsonResponse (ErrorResponse "Failed to retrieve secret") 500)).

End Get.

Section Retrieval.
Context `{W : WebPlatform}.
Implicit Types (kv : KVNamespace).

(** What a retrieval does, case by case. *)
Definition retrieval (ENCRYPTION_KEY id : string) kv
  : option Response * KVNamespace * list kv_op :=
  let n := String.length id in
  let key := "secret:" ++ id in
  if decide (6 ≤ n ≤ 12)%nat then
    match kv !! key with
    | None | Some (EmptyString, _) => (Some not_found, kv, [OpGet key])
    | Some (stored, _) =>
        match JSON_parse stored with
        | None => (Some retrieve_failed, kv, [OpGet key])
        | Some secretData =>
            match serverDecrypt (data secretData) ENCRYPTION_KEY with
            | None =>
                (Some retrieve_failed, delete key kv, [OpGet key; OpDelete key])
            | Some clientEncrypted =>
                (Some (delivered clientEncrypted), delete key kv,
                 [OpGet key; OpDelete key])
            end
        end
    end
  else (Some invalid_id, kv, []).

End Retrieval.

(* ===================================================================== *)
(** ** [POST /api/secrets] *)
(* ===================================================================== *)

(** What the handler can meet while it looks for its bindings in
    [context.locals]: nothing, a text, the KV namespace, or an object. *)
#[warnings="-register-all"] Inductive jsval :=
| JUndefined
| JNull
| JString (s : string)
| JKVNamespace
| JObject (fields : list (string * jsval)).

(** [o.name] on an object given by its fields. *)
Fixpoint field (name : string) (fields : list (string * jsval)) : jsval :=
  match fields with
  | [] => JUndefined
  | (k, v) :: rest => if String.eqb k name then v else field name rest
  end.

(** [v?.name] *)
Definition opt_prop (v : jsval) (name : string) : jsval :=
  match v with
  | JObject fields => field name fields
  | _ => JUndefined
  end.

(** [a ?? b] *)
Definition nullish_or (a b : jsval) : jsval :=
  match a with
  | JUndefined | JNull => b
  | _ => a
  end.

(** [!!v] *)
Definition truthy (v : jsval) : bool :=
  match v with
  | JUndefined | JNull | JString EmptyString => false
  | _ => true
  end.

(** A member of the request body: absent, or one of the JSON values. *)
Inductive json_member :=
| Absent
| JsonNull
| JsonBool (b : bool)
| JsonNumber (n : Z)
| JsonString (s : string)
| JsonCompound.

(** [interface CreateSecretRequest]; [encryptedData] ranges over every
    JSON value since the handler tests its type itself.  [expiresIn]
    follows its declared type, [expiresIn?: number], with whole seconds:
    [None] is a member that is absent or [null], which [??] replaces by
    the default.  The handler does not test the type of this member; a
    body with a fraction or another kind of JSON value there is not
    covered. *)
Record CreateSecretRequest := {
  encryptedData : json_member;
  expiresIn : option Z;
}.

(** What one call of the handler draws from its surroundings: [nanoid(8)],
    the two [crypto.getRandomValues] of [serverEncrypt], and the two
    readings of [Date.now()]. *)
Record Ambient := {
  nanoid8 : string;
  random_salt : list byte;
  random_iv : list byte;
  now_createdAt : Z;
  now_expiresAt : Z;
}.

Definition MIN_EXPIRATION : Z := 60.
Definition MAX_EXPIRATION : Z := 604800.
Definition DEFAULT_EXPIRATION : Z := 86400.
Definition MAX_PAYLOAD_SIZE : Z := 100 * 1024.

(** [Math.max(MIN_EXPIRATION, Math.min(MAX_EXPIRATION,
    body.expiresIn ?? DEFAULT_EXPIRATION))] *)
Definition clamp_expiration (expiresIn : option Z) : Z :=
  let expiresIn := default DEFAULT_EXPIRATION expiresIn in
  Z.max MIN_EXPIRATION (Z.min MAX_EXPIRATION expiresIn).

(** The search for the Cloudflare bindings:
    [runtime = locals.runtime ?? locals],
    [env = runtime?.env ?? runtime?.cf?.env ?? locals.cf?.env ?? runtime]. *)
Definition find_env (locals : list (string * jsval)) : jsval :=
  let runtime := nullish_or (field "runtime" locals) (JObject locals) in
  nullish_or
    (nullish_or
       (nullish_or (opt_prop runtime "env")
          (opt_prop (opt_prop runtime "cf") "env"))
       (opt_prop (field "cf" locals) "env"))
    runtime.

(** [env.SECRETS.put(...)]: a binding that is not the namespace has no
    [put] to call. *)
Definition SECRETS_put {A} (SECRETS : jsval) (key value : string) (ttl : Z)
    (k : action A) : action A :=
  match SECRETS with
  | JKVNamespace => KVPut key value ttl k
  | _ => Throw
  end.

Section Post.
Context `{W : WebPlatform}.

(** [serverEncrypt(data, env.ENCRYPTION_KEY)]: a binding that is not a
    text reaches [atob] as [[object Object]], which it refuses. *)
Definition serverEncrypt_with (ENCRYPTION_KEY : jsval) (data : string)
    (salt iv : list byte) : option string :=
  match ENCRYPTION_KEY with
  | JString keyBase64 => serverEncrypt data keyBase64 salt iv
  | _ => None
  end.

(** [request_json] is the outcome of [await request.json()], [None]
    when it rejects. *)
Definition POST (locals : list (string * jsval))
    (request_json : option CreateSecretRequest) (amb : Ambient)
  : action Response :=
  let localsKeys := locals.*1 in
  let env := find_env locals in
  try_catch
    (if negb (truthy (opt_prop env "SECRETS")) then
       Return (jsonResponse
         (ErrorResponse
            ("Server configuration error: KV not bound. Debug: locals keys=["
             ++ String.concat "," localsKeys ++ "]")) 500)
     else if negb (truthy (opt_prop env "ENCRYPTION_KEY")) then
       Return (jsonResponse
         (ErrorResponse "Server configuration error: encryption key not set")
         500)
     else
       or_throw request_json (λ body,
         match encryptedData body with
         | JsonString (String _ _ as encryptedData) =>
             if MAX_PAYLOAD_SIZE <? Z.of_nat (String.length encryptedData)
             then Return (jsonResponse (ErrorResponse "Payload too large") 413)
             else
               let expiresIn := clamp_expiration (expiresIn body) in
               let id := nanoid8 amb in
               or_throw
                 (serverEncrypt_with (opt_prop env "ENCRYPTION_KEY")
                    encryptedData (random_salt amb) (random_iv amb))
                 (λ serverEncrypted,
                    let storageData :=
                      {| data := serverEncrypted;
                         createdAt := now_createdAt amb |} in
                    SECRETS_put (opt_prop env "SECRETS")
                      ("secret:" ++ id) (JSON_stringify storageData) expiresIn
                      (let expiresAt := now_expiresAt amb + expiresIn * 1000 in
                       Return (jsonResponse
                                 (CreateSecretResponse id expiresAt) 201)))
         | _ =>
             Return (jsonResponse
                       (ErrorResponse "Missing or invalid encryptedData") 400)
         end))
    (Return (jsonResponse (ErrorResponse "Failed to create secret") 500)).

End Post.

(* ===================================================================== *)
(** ** The life of the namespace *)
(* ===================================================================== *)

(** What can happen to the namespace: a retrieval, a creation, or the
    store dropping a key whose TTL has run out. *)
Inductive event :=
| Retrieve (id : string)
| Create (locals : list (string * jsval))
    (request_json : option CreateSecretRequest) (amb : Ambient)
| Expire (key : string).

Section Life.
Context `{W : WebPlatform}.
Variable ENCRYPTION_KEY : string.

Definition after_event (kv : KVNamespace) (ev : event) : KVNamespace :=
  match ev with
  | Retrieve id => (run (onRequestGet ENCRYPTION_KEY id) kv).1.2
  | Create locals request_json amb => (run (POST locals request_json amb) kv).1.2
  | Expire key => delete key kv
  end.

Definition after_events (kv : KVNamespace) (evs : list event) : KVNamespace :=
  foldl after_event kv evs.

End Life.

Section Accepted.
Context `{W : WebPlatform}.

(** The bindings are in place and the master key is base64 text. *)
Definition configured (locals : list (string * jsval)) (masterKey : string)
  : Prop :=
  opt_prop (find_env locals) "SECRETS" = JKVNamespace ∧
  opt_prop (find_env locals) "ENCRYPTION_KEY" = JString masterKey ∧
  masterKey ≠ "" ∧ is_Some (base64ToArrayBuffer masterKey).

(** The random draws and the id have the sizes the code asks for. *)
Definition well_drawn (amb : Ambient) : Prop :=
  length (random_salt amb) = 16%nat ∧ length (random_iv amb) = 12%nat ∧
  String.length (nanoid8 amb) = 8%nat.

(** What [POST] stores for an accepted payload. *)
Definition stored_record (amb : Ambient) (masterKey s : string) : string :=
  JSON_stringify
    {| data := default "" (serverEncrypt s masterKey (random_salt amb)
                             (random_iv amb));
       createdAt := now_createdAt amb |}.

End Accepted.

(** The id that a creation mints, if the event is one. *)
Definition minted (ev : event) : option string :=
  match ev with
  | Create _ _ amb => Some (nanoid8 amb)
  | _ => None
  end.

(* ===================================================================== *)
(** ** A small platform to run the handlers on *)
(* ===================================================================== *)

(** The examples below run the handlers on this platform: a cipher that
    appends a 16-byte tag made from the key and the nonce, a key
    derivation that concatenates its inputs, the byte-for-byte codec for
    one-byte strings, a codec for texts that writes a code unit below 255
    as one byte and any other as the byte 255 and two more, and a JSON of
    its own for the stored record. *)
Module TestPlatform.

#[global] Instance byte_eq_decision : EqDecision byte := byte_eq_dec.

Definition tag (key iv : list byte) : list byte :=
  take 16 (key ++ iv ++ replicate 16 "000"%byte)%list.

Definition seal (key iv plaintext : list byte) : list byte :=
  (plaintext ++ tag key iv)%list.

Definition unseal (key iv ciphertext : list byte) : option (list byte) :=
  let n := (length ciphertext - 16)%nat in
  if (length ciphertext <? 16)%nat then None
  else if decide (drop n ciphertext = tag key iv)
       then Some (take n ciphertext)
       else None.

Definition derive (ikm salt info : list byte) : list byte :=
  (ikm ++ salt ++ info)%list.

(** A positive number in binary, lowest bit first, closed by a comma. *)
Fixpoint write_pos (p : positive) (tl : string) : string :=
  match p with
  | xH => String "," tl
  | xO q => String "0" (write_pos q tl)
  | xI q => String "1" (write_pos q tl)
  end.

Fixpoint read_pos (s : string) : option (positive * string) :=
  match s with
  | String "," tl => Some (xH, tl)
  | String "0" r => '(q, tl) ← read_pos r; Some (xO q, tl)
  | String "1" r => '(q, tl) ← read_pos r; Some (xI q, tl)
  | _ => None
  end.

Definition byte_of_N (n : N) : byte := default "000"%byte (Byte.of_N n).

Definition write_unit (u : N) : list byte :=
  if (u <? 255)%N then [byte_of_N u]
  else [byte_of_N 255; byte_of_N (u / 256); byte_of_N (u mod 256)].

Definition write_text (t : text) : list byte :=
  mjoin (write_unit <$> toWellFormed t).

Fixpoint read_units (bytes : list byte) : text :=
  match bytes with
  | [] => []
  | b :: r =>
      if (Byte.to_N b <? 255)%N then Byte.to_N b :: read_units r
      else
        match r with
        | hi :: lo :: r' =>
            (Byte.to_N hi * 256 + Byte.to_N lo)%N :: read_units r'
        | _ => [REPLACEMENT]
        end
  end.

Definition read_text (bytes : list byte) : text :=
  strip_BOM (read_units bytes).

Definition stringify (r : StoredSecret) : string :=
  match createdAt r with
  | Z0 => String "z" (data r)
  | Zpos p => String "p" (write_pos p (data r))
  | Zneg p => String "n" (write_pos p (data r))
  end.

Definition parse (s : string) : option StoredSecret :=
  match s with
  | String "z" d => Some {| data := d; createdAt := 0 |}
  | String "p" r =>
      '(p, d) ← read_pos r; Some {| data := d; createdAt := Zpos p |}
  | String "n" r =>
      '(p, d) ← read_pos r; Some {| data := d; createdAt := Zneg p |}
  | _ => None
  end.

#[global] Instance platform : WebPlatform := {|
  aes_gcm_encrypt := seal;
  aes_gcm_decrypt := unseal;
  hkdf_sha256 := derive;
  TextEncoder_encode := list_byte_of_string;
  TextDecoder_decode := string_of_list_byte;
  TextEncoder_encode_text := write_text;
  TextDecoder_decode_text := read_text;
  JSON_stringify := stringify;
  JSON_parse := parse;
|}.

End TestPlatform.

(* ===================================================================== *)
(** ** A deployment to run the examples on *)
(* ===================================================================== *)

Module Example.

(** The bindings, where the Cloudflare adapter puts them. *)
Definition locals : list (string * jsval) :=
  [("runtime",
    JObject [("env", JObject [("SECRETS", JKVNamespace);
                              ("ENCRYPTION_KEY", JString "AAEC")])])].

Definition ambient : Ambient := {|
  nanoid8 := "V1StGXR8";
  random_salt := replicate 16 "002"%byte;
  random_iv := replicate 12 "003"%byte;
  now_createdAt := 1700000000000;
  now_expiresAt := 1700000000005;
|}.

Definition another : Ambient := {|
  nanoid8 := "Uakgb_J5";
  random_salt := replicate 16 "004"%byte;
  random_iv := replicate 12 "005"%byte;
  now_createdAt := 1700000060000;
  now_expiresAt := 1700000060001;
|}.

Definition request (expiresIn : option Z) : CreateSecretRequest :=
  {| encryptedData := JsonString "aGVsbG8="; expiresIn := expiresIn |}.

(** The namespace after one creation. *)
Definition created : KVNamespace :=
  (run (POST locals (Some (request (Some 3600))) ambient) ∅).1.2.


Definition key : string := "secret:V1StGXR8".

(** What the creation has stored under that key. *)
Definition stored_text : string := default "" (fst <$> created !! key).
Definition stored_secret : StoredSecret :=
  default {| data := ""; createdAt := 0 |} (TestPlatform.parse stored_text).

(** What follows the first retrieval in the example of a delivery. *)
Definition aftermath : list event :=
  [Retrieve "V1StGXR8"; Expire key;
   Create locals (Some (request None)) another; Retrieve "Uakgb_J5";
   Create [] None another].

(** A stored record whose envelope is not even base64. *)
Definition broken : string :=
  TestPlatform.stringify {| data := "####"; createdAt := 5 |}.

End Example.

(* ===================================================================== *)
(** ** [src/lib/crypto.ts]: the key in the share link *)
(* ===================================================================== *)

(** What the functions read of [window]: [window.location.origin] and
    [window.location.hash].  [None] is [typeof window === 'undefined']. *)
Record Window := { origin : string; hash : string }.

(** [s.slice(1)] *)
Definition slice1 (s : string) : string :=
  match s with
  | EmptyString => EmptyString
  | String _ r => r
  end.

Definition getKeyFromHash (window : option Window) : option string :=
  match window with
  | None => None
  | Some w =>
      let hash := hash w in
      if String.eqb hash "" || (String.length hash <? 2)%nat then None
      else
        let key := slice1 hash in
        if isValidKey key then Some key else None
  end.

Definition createShareUrl (window : option Window) (id key : string) : string :=
  match window with
  | None => "/view/" ++ id ++ "#" ++ key
  | Some w =>
      let baseUrl := origin w in
      baseUrl ++ "/view/" ++ id ++ "#" ++ key
  end.

(** The origin that [createShareUrl] puts in front: none without a
    window. *)
Definition origin_of (window : option Window) : string :=
  match window with
  | Some w => origin w
  | None => ""
  end.

(** Platform: the fragment of a URL starts at its first [#], and
    [location.hash] is that text, or the empty text when nothing follows
    the [#]. *)
Fixpoint from_first_hash (url : string) : string :=
  match url with
  | EmptyString => EmptyString
  | String c r => if Ascii.eqb c "#" then url else from_first_hash r
  end.

Definition location_hash (url : string) : string :=
  let fragment := from_first_hash url in
  if String.eqb fragment "#" then EmptyString else fragment.

(** Platform: what of a URL goes into the request, all that precedes the
    first [#]. *)
Fixpoint without_fragment (url : string) : string :=
  match url with
  | EmptyString => EmptyString
  | String c r => if Ascii.eqb c "#" then EmptyString else String c (without_fragment r)
  end.

(** The characters a URL fragment carries unchanged, as far as base64url
    needs them: letters, digits, [-] and [_]. *)
Definition is_url_safe (c : ascii) : bool :=
  let n := N_of_ascii c in
  (((65 <=? n) && (n <=? 90)) || ((97 <=? n) && (n <=? 122))
   || ((48 <=? n) && (n <=? 57)) || (n =? 45) || (n =? 95))%N.

Definition no_hash (s : string) : bool :=
  string_forallb (λ c, negb (Ascii.eqb c "#")) s.

(** The number of characters other than [=]. *)
Fixpoint unpadded_length (s : string) : nat :=
  match s with
  | EmptyString => O
  | String c r =>
      if Ascii.eqb c "=" then unpadded_length r else S (unpadded_length r)
  end.

(* ===================================================================== *)
(** ** The two pages: [CreateForm] and [ViewSecret] *)
(* ===================================================================== *)

(** The text an error shows: a message the code writes, or the message
    of an exception that the platform raised. *)
Inductive ErrorText :=
| Message (text : string)
| ExceptionMessage.

(** Platform: [String.prototype.trim] strips white space and line
    terminators from both ends: tab, line feed, vertical tab, form feed,
    carriage return, space, no-break space, U+1680, U+2000 to U+200A,
    U+2028, U+2029, U+202F, U+205F, U+3000 and U+FEFF. *)
Definition is_js_whitespace (u : N) : bool :=
  ((u =? 9) || (u =? 10) || (u =? 11) || (u =? 12) || (u =? 13)
   || (u =? 32) || (u =? 160) || (u =? 5760)
   || ((8192 <=? u) && (u <=? 8202))
   || (u =? 8232) || (u =? 8233) || (u =? 8239) || (u =? 8287)
   || (u =? 12288) || (u =? 65279))%N.

Fixpoint trim_start (t : text) : text :=
  match t with
  | [] => []
  | u :: r => if is_js_whitespace u then trim_start r else t
  end.

Fixpoint trim_end (t : text) : text :=
  match t with
  | [] => []
  | u :: r =>
      match trim_end r with
      | [] => if is_js_whitespace u then [] else [u]
      | r' => u :: r'
      end
  end.

Definition trim (t : text) : text := trim_end (trim_start t).

(** [!t] for a text: it is empty. *)
Definition is_empty_text (t : text) : bool :=
  match t with
  | [] => true
  | _ => false
  end.

(** [response.ok] *)
Definition response_ok (r : Response) : bool :=
  (200 <=? status r) && (status r <=? 299).

(** [data.error] of a parsed body, [None] where the member is absent. *)
Definition data_error (data : ResponseBody) : option string :=
  match data with
  | ErrorResponse error => Some error
  | _ => None
  end.

(** [data.error || fallback] *)
Definition error_or (data : ResponseBody) (fallback : string) : string :=
  match data_error data with
  | None | Some EmptyString => fallback
  | Some error => error
  end.

Module CreateForm.

(** [EXPIRATION_OPTIONS]: value and label. *)
Definition EXPIRATION_OPTIONS : list (Z * string) :=
  [(3600, "1 hour"); (86400, "24 hours"); (259200, "3 days");
   (604800, "7 days")].

Inductive FormState := idle | encrypting | sending | success | error.

(** The state of the component that [handleSubmit] reads and sets. *)
Record Form := {
  secret : text;
  expiresIn : Z;
  state : FormState;
  shareUrl : string;
  error_text : ErrorText;
}.

(** [useState] initial values. *)
Definition initial : Form :=
  {| secret := []; expiresIn := 86400; state := idle; shareUrl := "";
     error_text := Message "" |}.

Definition failed (f : Form) (e : ErrorText) : Form :=
  {| secret := secret f; expiresIn := expiresIn f; state := error;
     shareUrl := shareUrl f; error_text := e |}.

(** [data.id] in a template literal: [undefined] is written out. *)
Definition data_id (data : ResponseBody) : string :=
  match data with
  | CreateSecretResponse id _ => id
  | _ => "undefined"
  end.

Section Handler.
Context `{W : WebPlatform}.

(** [handleSubmit]: [rawKey] and [iv] are what [generateKey] and [encrypt]
    draw; the request reaches [POST] on the server with the body
    [{encryptedData, expiresIn}] and reads [amb] there.  The result is the
    state of the component when the handler is done, and the
    namespace. *)
Definition handleSubmit (window : option Window) (rawKey iv : list byte)
    (server : list (string * jsval)) (amb : Ambient)
    (f : Form) (kv : KVNamespace) : Form * KVNamespace * list kv_op :=
  if is_empty_text (trim (secret f)) then
    ({| secret := secret f; expiresIn := expiresIn f; state := state f;
        shareUrl := shareUrl f;
        error_text := Message "Please enter a secret to share" |}, kv, [])
  else
    let clientKey := generateKey rawKey in
    match encrypt (secret f) clientKey iv with
    | None => (failed f ExceptionMessage, kv, [])
    | Some encryptedData =>
        let request :=
          Build_CreateSecretRequest (JsonString encryptedData)
            (Some (expiresIn f)) in
        let '(response, kv', log) := run (POST server (Some request) amb) kv in
        match response with
        | None => (failed f ExceptionMessage, kv', log)
        | Some response =>
            if negb (response_ok response) then
              (failed f
                 (Message (error_or (body response)
                             "Failed to create secret")), kv', log)
            else
              let data := body response in
              let url := createShareUrl window (data_id data) clientKey in
              ({| secret := secret f; expiresIn := expiresIn f;
                  state := success; shareUrl := url;
                  error_text := Message "" |}, kv', log)
        end
    end.

End Handler.

End CreateForm.

Module ViewSecret.

Inductive ViewState :=
| loading | ready | revealing | revealed | error | not_found | invalid_key.

(** The state of the component that [handleReveal] sets. *)
Record View := {
  state : ViewState;
  secret : text;
  error_text : ErrorText;
}.

Definition initial : View :=
  {| state := loading; secret := []; error_text := Message "" |}.

Section Handler.
Context `{W : WebPlatform}.

(** [handleReveal]: the request reaches [onRequestGet] on the server with
    [secretId] as its [id]. *)
Definition handleReveal (window : option Window) (secretId : string)
    (ENCRYPTION_KEY : string) (v : View) (kv : KVNamespace)
  : View * KVNamespace * list kv_op :=
  match getKeyFromHash window with
  | None | Some EmptyString =>
      ({| state := invalid_key; secret := secret v;
          error_text := error_text v |}, kv, [])
  | Some key =>
      let '(response, kv', log) :=
        run (onRequestGet ENCRYPTION_KEY secretId) kv in
      match response with
      | None =>
          ({| state := error; secret := secret v;
              error_text := ExceptionMessage |}, kv', log)
      | Some response =>
          if status response =? 404 then
            ({| state := not_found; secret := secret v;
                error_text := error_text v |}, kv', log)
          else if negb (response_ok response) then
            ({| state := error; secret := secret v;
                error_text :=
                  Message (error_or (body response)
                             "Failed to retrieve secret") |}, kv', log)
          else
            match
              match body response with
              | GetSecretResponse encryptedData => decrypt encryptedData key
              | _ => None
              end
            with
            | Some decrypted =>
                ({| state := revealed; secret := decrypted;
                    error_text := error_text v |}, kv', log)
            | None =>
                ({| state := error; secret := secret v;
                    error_text := ExceptionMessage |}, kv', log)
            end
      end
  end.

End Handler.

End ViewSecret.

(* ===================================================================== *)
(** ** A sender and a recipient for the examples *)
(* ===================================================================== *)

Module Pages.

Definition sender : option Window :=
  Some {| origin := "https://burnvelope.com"; hash := "" |}.

Definition rawKey : list byte := replicate 32 "007"%byte.
Definition nonce : list byte := replicate 12 "001"%byte.

Definition form : CreateForm.Form :=
  {| CreateForm.secret := text_of_string "hunter2";
     CreateForm.expiresIn := 259200;
     CreateForm.state := CreateForm.idle; CreateForm.shareUrl := "";
     CreateForm.error_text := Message "" |}.

(** The namespace after the sender has submitted the form. *)
Definition submitted : KVNamespace :=
  (CreateForm.handleSubmit sender rawKey nonce Example.locals
     Example.ambient form ∅).1.2.

(** What the server hands out for that secret. *)
Definition ciphertext : string :=
  default "" (encrypt (text_of_string "hunter2") (generateKey rawKey) nonce).

(** A recipient whose link carries a well-formed key that is not the
    sender's. *)
Definition stranger : option Window :=
  Some {| origin := "https://burnvelope.com";
          hash := String "#" (generateKey (replicate 32 "009"%byte)) |}.

End Pages.

(* ===================================================================== *)
(** * Theorems *)
(* ===================================================================== *)

Example btoa_hello : Base64.btoa "hello" = "aGVsbG8=".
Proof. reflexivity. Qed.
Example atob_hello : Base64.atob "aGVsbG8=" = Some "hello".
Proof. reflexivity. Qed.
Example atob_unpadded : Base64.atob "aGVsbG8" = Some "hello".
Proof. reflexivity. Qed.
Example atob_bad_length : Base64.atob "aGVsb" = None.
Proof. reflexivity. Qed.
Example atob_bad_char : Base64.atob "aG-sbG8=" = None.
Proof. reflexivity. Qed.
Example atob_inner_pad : Base64.atob "aG==bG8=" = None.
Proof. reflexivity. Qed.

(* ===================================================================== *)
(** ** Base64 round trips *)
(* ===================================================================== *)

Section Base64Facts.
Import Base64.

(** Strings by groups of three characters. *)
Lemma string_ind3 (P : string → Prop) :
  P EmptyString →
  (∀ a, P (String a EmptyString)) →
  (∀ a b, P (String a (String b EmptyString))) →
  (∀ a b c r, P r → P (String a (String b (String c r)))) →
  ∀ s, P s.
Proof.
  intros H0 H1 H2 H3.
  assert (H : ∀ s, P s ∧ (∀ a, P (String a s)) ∧ (∀ a b, P (String a (String b s)))).
  { induction s as [|c s (IH0 & IH1 & IH2)]; [by auto|].
    split_and!; [apply IH1|intros; apply IH2|intros; by apply H3]. }
  intros s. apply H.
Qed.

Lemma b64val_b64char n : (n < 64)%N → b64val (b64char n) = Some n.
Proof.
  intros Hn. destruct n as [|p]; [reflexivity|].
  do 6 (destruct p as [p|p|]; try reflexivity); exfalso; lia.
Qed.

Lemma b64char_ordinaryb n : ordinaryb (b64char n) = true.
Proof.
  destruct n as [|p]; [reflexivity|].
  do 6 (destruct p as [p|p|]; try reflexivity).
Qed.

Lemma b64char_ordinary n : ordinary (b64char n).
Proof.
  pose proof (b64char_ordinaryb n) as H. unfold ordinaryb in H.
  rewrite !andb_true_iff, !negb_true_iff in H. unfold ordinary. tauto.
Qed.

(** The bit shuffling of one group, on numbers below 256. *)
Lemma sextet_bounds x y z :
  (x < 256 → y < 256 → z < 256 →
   x / 4 < 64 ∧ (x mod 4) * 16 + y / 16 < 64 ∧ (x mod 4) * 16 < 64 ∧
   (y mod 16) * 4 + z / 64 < 64 ∧ (y mod 16) * 4 < 64 ∧ z mod 64 < 64)%N.
Proof. intros. euclid. Qed.

Lemma regroup_first x y :
  (y < 256 → x / 4 * 4 + ((x mod 4) * 16 + y / 16) / 16 = x)%N.
Proof. intros. euclid. Qed.

Lemma regroup_second x y z :
  (y < 256 → z < 256 →
   ((x mod 4) * 16 + y / 16) mod 16 * 16 + ((y mod 16) * 4 + z / 64) / 4 = y)%N.
Proof. intros. euclid. Qed.

Lemma regroup_third y z :
  (z < 256 → ((y mod 16) * 4 + z / 64) mod 4 * 64 + z mod 64 = z)%N.
Proof. intros. euclid. Qed.

Lemma dec4_group a b c tl :
  let x := N_of_ascii a in
  let y := N_of_ascii b in
  let z := N_of_ascii c in
  dec4 (b64char (x / 4)) (b64char ((x mod 4) * 16 + y / 16))
       (b64char ((y mod 16) * 4 + z / 64)) (b64char (z mod 64)) tl
  = rest ← tl; Some (String a (String b (String c rest))).
Proof.
  intros x y z.
  pose proof (N_ascii_bounded a) as Hx. pose proof (N_ascii_bounded b) as Hy.
  pose proof (N_ascii_bounded c) as Hz. fold x in Hx. fold y in Hy. fold z in Hz.
  destruct (sextet_bounds x y z Hx Hy Hz) as (B1 & B2 & _ & B3 & _ & B4).
  unfold dec4. rewrite !b64val_b64char by assumption. simpl.
  rewrite regroup_first, regroup_second, regroup_third by assumption.
  unfold x, y, z. by rewrite !ascii_N_embedding.
Qed.

Lemma dec3_group a b :
  let x := N_of_ascii a in
  let y := N_of_ascii b in
  dec3 (b64char (x / 4)) (b64char ((x mod 4) * 16 + y / 16))
       (b64char ((y mod 16) * 4))
  = Some (String a (String b EmptyString)).
Proof.
  intros x y.
  pose proof (N_ascii_bounded a) as Hx. pose proof (N_ascii_bounded b) as Hy.
  fold x in Hx. fold y in Hy.
  destruct (sextet_bounds x y 0 Hx Hy eq_refl) as (B1 & B2 & _ & _ & B3 & _).
  unfold dec3. rewrite !b64val_b64char by assumption. simpl.
  pose proof (regroup_second x y 0 Hy eq_refl) as E.
  rewrite N.add_0_r in E. rewrite regroup_first, E by assumption.
  unfold x, y. by rewrite !ascii_N_embedding.
Qed.

Lemma dec2_group a :
  let x := N_of_ascii a in
  dec2 (b64char (x / 4)) (b64char ((x mod 4) * 16))
  = Some (String a EmptyString).
Proof.
  intros x.
  pose proof (N_ascii_bounded a) as Hx. fold x in Hx.
  destruct (sextet_bounds x 0 0 Hx eq_refl eq_refl) as (B1 & _ & B2 & _).
  unfold dec2. rewrite !b64val_b64char by assumption. simpl.
  pose proof (regroup_first x 0 eq_refl) as E.
  rewrite N.add_0_r in E. rewrite E.
  unfold x. by rewrite ascii_N_embedding.
Qed.

Lemma btoa_empty s : btoa s = EmptyString → s = EmptyString.
Proof. by destruct s as [|a [|b [|c r]]]. Qed.

(** Decoding undoes encoding. *)
Lemma decode_btoa s : decode (btoa s) = Some s.
Proof.
  induction s as [|a|a b|a b c r IH] using string_ind3.
  - reflexivity.
  - cbn [btoa decode].
    change (Ascii.eqb pad pad) with true. cbn iota. apply dec2_group.
  - cbn [btoa decode].
    change (Ascii.eqb pad pad) with true.
    destruct (b64char_ordinary ((N_of_ascii b mod 16) * 4)) as (E & _).
    unfold pad in *. rewrite E. apply dec3_group.
  - cbn [btoa decode].
    destruct (b64char_ordinary (N_of_ascii c mod 64)) as (E & _).
    destruct (btoa r) eqn:Er.
    + unfold pad. rewrite E. apply btoa_empty in Er as ->. by rewrite dec4_group.
    + rewrite dec4_group, IH. reflexivity.
Qed.

Lemma strip_whitespace_btoa s : strip_whitespace (btoa s) = btoa s.
Proof.
  induction s as [|a|a b|a b c r IH] using string_ind3;
    cbn [btoa strip_whitespace]; [done|..].
  - destruct (b64char_ordinary (N_of_ascii a / 4)) as (_ & _ & _ & ->).
    by destruct (b64char_ordinary (N_of_ascii a mod 4 * 16)) as (_ & _ & _ & ->).
  - destruct (b64char_ordinary (N_of_ascii a / 4)) as (_ & _ & _ & ->).
    destruct (b64char_ordinary (N_of_ascii a mod 4 * 16 + N_of_ascii b / 16))
      as (_ & _ & _ & ->).
    by destruct (b64char_ordinary (N_of_ascii b mod 16 * 4)) as (_ & _ & _ & ->).
  - destruct (b64char_ordinary (N_of_ascii a / 4)) as (_ & _ & _ & ->).
    destruct (b64char_ordinary (N_of_ascii a mod 4 * 16 + N_of_ascii b / 16))
      as (_ & _ & _ & ->).
    destruct (b64char_ordinary (N_of_ascii b mod 16 * 4 + N_of_ascii c / 64))
      as (_ & _ & _ & ->).
    destruct (b64char_ordinary (N_of_ascii c mod 64)) as (_ & _ & _ & ->).
    by rewrite IH.
Qed.

(** [atob] undoes [btoa]. *)
Lemma atob_btoa s : atob (btoa s) = Some s.
Proof. unfold atob. rewrite strip_whitespace_btoa. apply decode_btoa. Qed.

End Base64Facts.

(** [base64ToArrayBuffer] undoes [arrayBufferToBase64]. *)
Lemma base64ToArrayBuffer_arrayBufferToBase64 buffer :
  base64ToArrayBuffer (arrayBufferToBase64 buffer) = Some buffer.
Proof.
  unfold base64ToArrayBuffer, arrayBufferToBase64.
  rewrite atob_btoa. simpl. by rewrite list_byte_of_string_of_list_byte.
Qed.

Section Base64urlFacts.
Import Base64.

Lemma to_url_cons c r :
  replace_all "/" "_" (replace_all "+" "-" (String c r))
  = String (to_url c) (replace_all "/" "_" (replace_all "+" "-" r)).
Proof. reflexivity. Qed.

Lemma from_url_cons c r :
  replace_all "_" "/" (replace_all "-" "+" (String c r))
  = String (from_url c) (replace_all "_" "/" (replace_all "-" "+" r)).
Proof. reflexivity. Qed.

Lemma strip_padding_cons c r :
  Ascii.eqb c "=" = false →
  strip_padding (String c r) = String c (strip_padding r).
Proof. intros E. cbn [strip_padding]. rewrite E. by destruct (strip_padding r). Qed.

Lemma to_url_ordinary c :
  ordinary c → Ascii.eqb (to_url c) "=" = false ∧ from_url (to_url c) = c.
Proof.
  intros (E1 & E2 & E3 & _). unfold to_url, from_url.
  destruct (Ascii.eqb_spec c "+") as [->|H1]; [done|].
  destruct (Ascii.eqb_spec c "/") as [->|H2]; [done|].
  by rewrite E1, E2, E3.
Qed.

Lemma repad_group c0 c1 c2 c3 t :
  repad (String c0 (String c1 (String c2 (String c3 t))))
  = String c0 (String c1 (String c2 (String c3 (repad t)))).
Proof.
  unfold repad. cbn [String.length].
  replace (S (S (S (S (String.length t))))) with (String.length t + 1 * 4)%nat by lia.
  rewrite Nat.Div0.mod_add.
  by destruct (String.length t mod 4 =? 0)%nat.
Qed.

(** Stripping the padding and putting it back gives the text of
    [btoa]. *)
Lemma repad_strip_btoa s :
  repad (replace_all "_" "/" (replace_all "-" "+"
    (strip_padding (replace_all "/" "_" (replace_all "+" "-" (btoa s))))))
  = btoa s.
Proof.
  induction s as [|a|a b|a b c r IH] using string_ind3; cbn [btoa].
  - reflexivity.
  - destruct (to_url_ordinary _ (b64char_ordinary (N_of_ascii a / 4))) as (P0 & Q0).
    destruct (to_url_ordinary _ (b64char_ordinary (N_of_ascii a mod 4 * 16)))
      as (P1 & Q1).
    rewrite !to_url_cons, !strip_padding_cons by assumption.
    rewrite !from_url_cons, Q0, Q1. reflexivity.
  - destruct (to_url_ordinary _ (b64char_ordinary (N_of_ascii a / 4))) as (P0 & Q0).
    destruct (to_url_ordinary _
      (b64char_ordinary (N_of_ascii a mod 4 * 16 + N_of_ascii b / 16))) as (P1 & Q1).
    destruct (to_url_ordinary _ (b64char_ordinary (N_of_ascii b mod 16 * 4)))
      as (P2 & Q2).
    rewrite !to_url_cons, !strip_padding_cons by assumption.
    rewrite !from_url_cons, Q0, Q1, Q2. reflexivity.
  - destruct (to_url_ordinary _ (b64char_ordinary (N_of_ascii a / 4))) as (P0 & Q0).
    destruct (to_url_ordinary _
      (b64char_ordinary (N_of_ascii a mod 4 * 16 + N_of_ascii b / 16))) as (P1 & Q1).
    destruct (to_url_ordinary _
      (b64char_ordinary (N_of_ascii b mod 16 * 4 + N_of_ascii c / 64))) as (P2 & Q2).
    destruct (to_url_ordinary _ (b64char_ordinary (N_of_ascii c mod 64)))
      as (P3 & Q3).
    rewrite !to_url_cons, !strip_padding_cons by assumption.
    rewrite !from_url_cons, Q0, Q1, Q2, Q3, repad_group. by rewrite IH.
Qed.

(** [base64urlToArrayBuffer] undoes [arrayBufferToBase64url], for a
    buffer of any length. *)
Lemma base64url_roundtrip buffer :
  base64urlToArrayBuffer (arrayBufferToBase64url buffer) = Some buffer.
Proof.
  change (base64urlToArrayBuffer (arrayBufferToBase64url buffer))
    with (base64ToArrayBuffer
            (repad (replace_all "_" "/" (replace_all "-" "+"
               (strip_padding (replace_all "/" "_" (replace_all "+" "-"
                  (btoa (string_of_list_byte buffer))))))))).
  rewrite repad_strip_btoa.
  apply base64ToArrayBuffer_arrayBufferToBase64.
Qed.

End Base64urlFacts.

(* ===================================================================== *)
(** ** The test platform meets the contracts *)
(* ===================================================================== *)

Lemma read_write_pos p tl :
  TestPlatform.read_pos (TestPlatform.write_pos p tl) = Some (p, tl).
Proof. induction p as [p IH|p IH|]; simpl; by rewrite ?IH. Qed.

Lemma to_N_byte_of_N n :
  (n < 256)%N → Byte.to_N (TestPlatform.byte_of_N n) = n.
Proof.
  intros Hn. unfold TestPlatform.byte_of_N.
  destruct (Byte.of_N n) as [b|] eqn:E; simpl.
  - by apply Byte.to_of_N.
  - apply Byte.of_N_None_iff in E. lia.
Qed.

Lemma is_text_cons u t :
  is_text (u :: t) = true ↔ (u < 65536)%N ∧ is_text t = true.
Proof.
  unfold is_text. cbn [forallb]. rewrite andb_true_iff, N.ltb_lt. done.
Qed.

(** Making a text well-formed keeps its code units within 16 bits. *)
Lemma is_text_toWellFormed t :
  is_text t = true → is_text (toWellFormed t) = true.
Proof.
  assert (∀ t, (is_text t = true → is_text (toWellFormed t) = true) ∧
               (∀ u, is_text (u :: t) = true →
                     is_text (toWellFormed (u :: t)) = true)) as H.
  { clear t. induction t as [|v t [IH1 IH2]].
    - split; [done|]. intros u Hu. cbn [toWellFormed].
      repeat case_match; try done.
    - split; [apply IH2|]. intros u Hu%is_text_cons. destruct Hu as [Hu Hvt].
      pose proof (IH2 v Hvt) as IHv.
      apply is_text_cons in Hvt as [Hv Ht]. specialize (IH1 Ht).
      cbn [toWellFormed] in *.
      repeat case_match; simplify_eq; rewrite ?is_text_cons in *;
        repeat split; try done; tauto. }
  apply H.
Qed.

Lemma read_write_units t :
  is_text t = true →
  TestPlatform.read_units (mjoin (TestPlatform.write_unit <$> t)) = t.
Proof.
  induction t as [|u t IH]; [done|]. intros [Hu Ht]%is_text_cons.
  specialize (IH Ht).
  cbn [fmap list_fmap mjoin list_join]. unfold TestPlatform.write_unit at 1.
  destruct (N.ltb_spec u 255) as [Hlt|Hge].
  - cbn [app TestPlatform.read_units].
    rewrite to_N_byte_of_N by lia.
    destruct (N.ltb_spec u 255); [|lia]. f_equal. exact IH.
  - cbn [app TestPlatform.read_units].
    rewrite (to_N_byte_of_N 255) by lia.
    change (255 <? 255)%N with false. cbv iota.
    assert (u / 256 < 256 ∧ u mod 256 < 256 ∧ u / 256 * 256 + u mod 256 = u)%N
      as (H1 & H2 & H3) by euclid.
    rewrite !to_N_byte_of_N by done. rewrite H3. f_equal. exact IH.
Qed.

Lemma TestPlatform_laws : WebPlatformLaws TestPlatform.platform.
Proof.
  split; simpl.
  - intros key iv plaintext. unfold TestPlatform.unseal, TestPlatform.seal.
    assert (length (TestPlatform.tag key iv) = 16%nat) as Htag.
    { unfold TestPlatform.tag. rewrite length_take, !length_app, length_replicate. lia. }
    rewrite length_app, Htag.
    replace (length plaintext + 16 - 16)%nat with (length plaintext) by lia.
    destruct (Nat.ltb_spec (length plaintext + 16) 16); [lia|].
    rewrite drop_app_length, take_app_length. by rewrite decide_True.
  - intros s _. apply string_of_list_byte_of_string.
  - intros t Ht. unfold TestPlatform.read_text, TestPlatform.write_text.
    by rewrite read_write_units by by apply is_text_toWellFormed.
  - intros [d c]. unfold TestPlatform.parse, TestPlatform.stringify. simpl.
    destruct c; simpl; by rewrite ?read_write_pos.
  - reflexivity.
Qed.

(* ===================================================================== *)
(** ** The client key *)
(* ===================================================================== *)

(** C10. A key made by [generateKey] from a 32-byte buffer decodes, with
    [base64urlToArrayBuffer], to that very buffer, and [isValidKey]
    accepts it: the unpadded base64url text round-trips. *)
Theorem generateKey_isValidKey (rawKey : list byte) :
  length rawKey = 32%nat →
  base64urlToArrayBuffer (arrayBufferToBase64url rawKey) = Some rawKey ∧
  isValidKey (generateKey rawKey) = true.
Proof.
  intros Hlen. unfold isValidKey, generateKey.
  rewrite base64url_roundtrip, Hlen. done.
Qed.

Lemma generateKey_isValidKey_witness :
  length (replicate 32 "007"%byte) = 32%nat ∧
  base64urlToArrayBuffer (arrayBufferToBase64url (replicate 32 "007"%byte))
    = Some (replicate 32 "007"%byte) ∧
  isValidKey (generateKey (replicate 32 "007"%byte)) = true.
Proof.
  split; [reflexivity|].
  apply (generateKey_isValidKey (replicate 32 "007"%byte)). reflexivity.
Defined.

(* ===================================================================== *)
(** ** The two layers of encryption *)
(* ===================================================================== *)

Section RoundTrip.
Context {W : WebPlatform} {L : WebPlatformLaws W}.


(** The client layer alone: what comes back is the well-formed version
    of the plaintext, less one leading byte order mark. *)
Lemma decrypt_encrypt p k iv c :
  is_text p = true → length iv = IV_LENGTH →
  encrypt p k iv = Some c →
  decrypt c k = Some (strip_BOM (toWellFormed p)).
Proof.
  intros Hp Hiv. unfold encrypt, decrypt.
  destruct (importKey k) as [key|]; [simpl|done].
  intros [= <-].
  rewrite base64ToArrayBuffer_arrayBufferToBase64. simpl.
  rewrite take_app_length', drop_app_length' by done.
  rewrite aes_gcm_correct. simpl. by rewrite text_codec.
Qed.

Lemma strip_BOM_id (t : text) : head t ≠ Some BOM → strip_BOM t = t.
Proof.
  destruct t as [|u r]; [done|]. cbn. intros Hu.
  destruct (N.eqb_spec u BOM) as [->|]; done.
Qed.

Lemma b64char_ascii n : is_ascii (Base64.b64char n) = true.
Proof.
  destruct n as [|p]; [reflexivity|].
  do 6 (destruct p as [p|p|]; try reflexivity).
Qed.

(** Base64 text is ASCII. *)
Lemma btoa_ascii s : string_forallb is_ascii (Base64.btoa s) = true.
Proof.
  induction s as [|a|a b|a b c r IH] using string_ind3;
    cbn [Base64.btoa string_forallb]; rewrite ?b64char_ascii, ?IH; done.
Qed.

Lemma encrypt_ascii p k iv c :
  encrypt p k iv = Some c → string_forallb is_ascii c = true.
Proof.
  unfold encrypt. destruct (importKey k); [simpl|done].
  intros [= <-]. apply btoa_ascii.
Qed.

(** The envelope layer alone, on ASCII text. *)
Lemma serverDecrypt_serverEncrypt c masterKey salt iv e :
  string_forallb is_ascii c = true →
  length salt = 16%nat → length iv = 12%nat →
  serverEncrypt c masterKey salt iv = Some e →
  serverDecrypt e masterKey = Some c.
Proof.
  intros Hc Hsalt Hiv. unfold serverEncrypt, serverDecrypt.
  destruct (base64ToArrayBuffer masterKey) as [keyMaterial|]; [simpl|done].
  intros [= <-].
  rewrite base64ToArrayBuffer_arrayBufferToBase64. simpl.
  rewrite take_app_length' by done.
  rewrite (drop_app_length' salt) by done.
  rewrite take_app_length' by done.
  rewrite app_assoc, drop_app_length' by (rewrite length_app; lia).
  rewrite aes_gcm_correct. simpl. by rewrite text_codec_ascii.
Qed.


End RoundTrip.



(* ===================================================================== *)
(** ** [GET /api/secrets/:id], run alone *)
(* ===================================================================== *)

Section GetFacts.
Context {W : WebPlatform}.
Implicit Types (kv : KVNamespace) (id key : string).

Lemma run_onRequestGet ENCRYPTION_KEY id kv :
  run (onRequestGet ENCRYPTION_KEY id) kv = retrieval ENCRYPTION_KEY id kv.
Proof.
  unfold onRequestGet, retrieval.
  destruct (decide (6 ≤ String.length id ≤ 12)%nat) as [Hn|Hn].
  - assert (String.eqb id "" = false) as ->.
    { destruct id; [simpl in Hn; lia|done]. }
    destruct (Nat.ltb_spec (String.length id) 6); [lia|].
    destruct (Nat.ltb_spec 12 (String.length id)); [lia|].
    cbn [orb try_catch run].
    destruct (kv !! ("secret:" ++ id)) as [[[|c stored] ttl]|]; cbn; [done| |done].
    destruct (JSON_parse (String c stored)) as [secretData|]; cbn; [|done].
    by destruct (serverDecrypt (data secretData) ENCRYPTION_KEY).
  - assert ((String.eqb id "" || (String.length id <? 6)%nat
             || (12 <? String.length id)%nat) = true) as ->; [|done].
    destruct (Nat.ltb_spec (String.length id) 6); [by rewrite orb_true_r|].
    destruct (Nat.ltb_spec 12 (String.length id)); [by rewrite orb_true_r|lia].
Qed.

(** C6. An id shorter than 6 or longer than 12 characters is answered
    with the 400 validation error and the namespace is not called at
    all; an id of 6 to 12 characters passes the check, and the
    namespace is then looked up under ["secret:" ++ id]. *)
Theorem onRequestGet_id_shape ENCRYPTION_KEY id kv :
  ((String.length id < 6 ∨ 12 < String.length id)%nat →
     run (onRequestGet ENCRYPTION_KEY id) kv = (Some invalid_id, kv, [])) ∧
  ((6 ≤ String.length id ≤ 12)%nat →
     ∃ r kv' log,
       run (onRequestGet ENCRYPTION_KEY id) kv
       = (Some r, kv', OpGet ("secret:" ++ id) :: log) ∧ r ≠ invalid_id).
Proof.
  rewrite run_onRequestGet. unfold retrieval. split; intros Hn.
  - rewrite decide_False by lia. done.
  - rewrite decide_True by done.
    destruct (kv !! ("secret:" ++ id)) as [[[|c stored] ttl]|]; [by eauto| |by eauto].
    destruct (JSON_parse (String c stored)) as [secretData|]; [|by eauto].
    destruct (serverDecrypt (data secretData) ENCRYPTION_KEY); by eauto.
Qed.

(** A retrieval never adds a key, and what it leaves is what it found. *)
Lemma onRequestGet_lookup_None ENCRYPTION_KEY id kv key :
  kv !! key = None →
  (run (onRequestGet ENCRYPTION_KEY id) kv).1.2 !! key = None.
Proof.
  intros Hkey. rewrite run_onRequestGet. unfold retrieval.
  repeat case_match; simpl; try done;
    by (apply lookup_delete_None; right).
Qed.

(** What the retrieval of a record that is present does to it. *)
Lemma onRequestGet_present ENCRYPTION_KEY id kv stored ttl :
  (6 ≤ String.length id ≤ 12)%nat →
  kv !! ("secret:" ++ id) = Some (stored, ttl) → stored ≠ "" →
  run (onRequestGet ENCRYPTION_KEY id) kv =
    match JSON_parse stored with
    | None => (Some retrieve_failed, kv, [OpGet ("secret:" ++ id)])
    | Some secretData =>
        (Some (match serverDecrypt (data secretData) ENCRYPTION_KEY with
               | None => retrieve_failed
               | Some clientEncrypted => delivered clientEncrypted
               end),
         delete ("secret:" ++ id) kv,
         [OpGet ("secret:" ++ id); OpDelete ("secret:" ++ id)])
    end.
Proof.
  intros Hn Hkv Hs. rewrite run_onRequestGet. unfold retrieval.
  rewrite decide_True, Hkv by done.
  destruct stored; [done|].
  destruct (JSON_parse _); [|done]. by destruct (serverDecrypt _ _).
Qed.

(** The retrieval of a key that is absent. *)
Lemma onRequestGet_absent ENCRYPTION_KEY id kv :
  (6 ≤ String.length id ≤ 12)%nat →
  kv !! ("secret:" ++ id) = None →
  run (onRequestGet ENCRYPTION_KEY id) kv
  = (Some not_found, kv, [OpGet ("secret:" ++ id)]).
Proof.
  intros Hn Hkv. rewrite run_onRequestGet. unfold retrieval.
  by rewrite decide_True, Hkv.
Qed.

(** C3, as the code has it. A retrieval that finds a record and parses
    it deletes the record before it decrypts the envelope: whether the
    decryption then succeeds or fails, the record is gone and a later
    call is answered with the 404 error.  Only a stored text that fails
    to parse is left in place. *)
Theorem onRequestGet_deletes_before_decrypt ENCRYPTION_KEY id kv stored ttl :
  (6 ≤ String.length id ≤ 12)%nat →
  kv !! ("secret:" ++ id) = Some (stored, ttl) → stored ≠ "" →
  let '(r, kv', _) := run (onRequestGet ENCRYPTION_KEY id) kv in
  match JSON_parse stored with
  | Some secretData =>
      kv' = delete ("secret:" ++ id) kv ∧
      (serverDecrypt (data secretData) ENCRYPTION_KEY = None →
       r = Some retrieve_failed) ∧
      run (onRequestGet ENCRYPTION_KEY id) kv'
      = (Some not_found, kv', [OpGet ("secret:" ++ id)])
  | None => r = Some retrieve_failed ∧ kv' = kv
  end.
Proof.
  intros Hn Hkv Hs. rewrite (onRequestGet_present _ _ _ stored ttl) by done.
  destruct (JSON_parse stored) as [secretData|]; [|done].
  split_and!; [done|by intros ->|].
  apply onRequestGet_absent; [done|]. apply lookup_delete_eq.
Qed.

End GetFacts.

Section GetFactsLaws.
Context {W : WebPlatform} {L : WebPlatformLaws W}.

(** C9. The answer of a retrieval does not depend on [createdAt]: two
    namespaces that hold, under some key, records with the same [data]
    and any two [createdAt] give the same response and the same calls on
    the namespace, and leave the same namespace when the record is the
    one looked up. *)
Theorem onRequestGet_ignores_createdAt ENCRYPTION_KEY id
    (kv : KVNamespace) key s1 s2 r1 r2 ttl :
  JSON_parse s1 = Some r1 → JSON_parse s2 = Some r2 →
  data r1 = data r2 →
  let out1 := run (onRequestGet ENCRYPTION_KEY id) (<[key := (s1, ttl)]> kv) in
  let out2 := run (onRequestGet ENCRYPTION_KEY id) (<[key := (s2, ttl)]> kv) in
  out1.1.1 = out2.1.1 ∧ out1.2 = out2.2 ∧
  ((6 ≤ String.length id ≤ 12)%nat → key = "secret:" ++ id →
   out1.1.2 = out2.1.2).
Proof.
  intros H1 H2 Hd out1 out2. subst out1 out2.
  assert (s1 ≠ "") as N1 by (intros ->; rewrite JSON_parse_empty in H1; congruence).
  assert (s2 ≠ "") as N2 by (intros ->; rewrite JSON_parse_empty in H2; congruence).
  rewrite !run_onRequestGet. unfold retrieval.
  destruct (decide (6 ≤ String.length id ≤ 12)%nat) as [Hn|Hn]; [|done].
  destruct (decide (key = "secret:" ++ id)) as [->|Hne].
  - rewrite !lookup_insert_eq.
    destruct s1; [done|]. destruct s2; [done|].
    rewrite H1, H2, Hd, !delete_insert_eq.
    by destruct (serverDecrypt (data r2) ENCRYPTION_KEY).
  - rewrite !lookup_insert_ne by done.
    repeat case_match; simpl; split_and!; try done.
Qed.

End GetFactsLaws.

(* ===================================================================== *)
(** ** [POST /api/secrets], run alone *)
(* ===================================================================== *)

Section PostFacts.
Context {W : WebPlatform}.
Implicit Types (kv : KVNamespace) (locals : list (string * jsval)).

(** The TTL is always within the limits. *)
Lemma clamp_expiration_range expiresIn :
  60 ≤ clamp_expiration expiresIn ≤ 604800.
Proof. unfold clamp_expiration, MIN_EXPIRATION, MAX_EXPIRATION. lia. Qed.

(** A creation writes at most the key of the id it mints. *)
Lemma POST_store locals request_json amb kv :
  (run (POST locals request_json amb) kv).1.2 = kv ∨
  ∃ value ttl,
    (run (POST locals request_json amb) kv).1.2
    = <["secret:" ++ nanoid8 amb := (value, ttl)]> kv.
Proof.
  unfold POST.
  destruct (truthy (opt_prop (find_env locals) "SECRETS")); [|by left].
  destruct (truthy (opt_prop (find_env locals) "ENCRYPTION_KEY")); [|by left].
  destruct request_json as [body|]; [|by left]. cbn [negb or_throw].
  destruct (encryptedData body) as [| | | |[|c s]|]; try by left.
  destruct (MAX_PAYLOAD_SIZE <? _); [by left|].
  destruct (serverEncrypt_with _ _ _ _) as [serverEncrypted|]; [|by left].
  cbn [or_throw].
  destruct (opt_prop (find_env locals) "SECRETS"); try by left.
  right. by eexists _, _.
Qed.

(** C5. When the bindings are there and the payload is accepted, the
    creation succeeds with the TTL clamped into [60, 604800]: 86400 when
    [expiresIn] is omitted, 60 for a value below 60, 604800 for a value
    above 604800, the value itself otherwise.  The clamped TTL is the
    [expirationTtl] of the one [put] and [expiresAt] is the clock plus
    that TTL, in milliseconds; no value of [expiresIn] is refused. *)
Theorem POST_clamps_expiration locals body amb kv masterKey s :
  opt_prop (find_env locals) "SECRETS" = JKVNamespace →
  opt_prop (find_env locals) "ENCRYPTION_KEY" = JString masterKey →
  masterKey ≠ "" → is_Some (base64ToArrayBuffer masterKey) →
  encryptedData body = JsonString s → s ≠ "" →
  Z.of_nat (String.length s) ≤ MAX_PAYLOAD_SIZE →
  let ttl := clamp_expiration (expiresIn body) in
  let key := "secret:" ++ nanoid8 amb in
  (∃ value,
     run (POST locals (Some body) amb) kv
     = (Some (jsonResponse
                (CreateSecretResponse (nanoid8 amb)
                   (now_expiresAt amb + ttl * 1000)) 201),
        <[key := (value, ttl)]> kv,
        [OpPut key value ttl])) ∧
  60 ≤ ttl ≤ 604800 ∧
  (expiresIn body = None → ttl = 86400) ∧
  (∀ n, expiresIn body = Some n →
        (n < 60 → ttl = 60) ∧ (604800 < n → ttl = 604800) ∧
        (60 ≤ n ≤ 604800 → ttl = n)).
Proof.
  intros HS HK Hm [keyMaterial Hkm] Hd Hs Hlen ttl key.
  split; [|split; [|split]].
  - unfold POST. rewrite HS, HK.
    destruct masterKey; [done|]. destruct s as [|c s]; [done|].
    cbn [truthy negb or_throw]. rewrite Hd.
    destruct (Z.ltb_spec MAX_PAYLOAD_SIZE (Z.of_nat (String.length (String c s))));
      [lia|].
    unfold serverEncrypt_with, serverEncrypt. rewrite Hkm.
    cbn. by eexists.
  - apply clamp_expiration_range.
  - intros E. subst ttl. by rewrite E.
  - intros n E. subst ttl. rewrite E.
    unfold clamp_expiration, MIN_EXPIRATION, MAX_EXPIRATION. simpl. lia.
Qed.


(** X17. A creation always answers; with the namespace bound, its errors
    carry one of four fixed messages. *)
Lemma POST_errors locals request_json amb kv :
  truthy (opt_prop (find_env locals) "SECRETS") = true →
  ∃ r, (run (POST locals request_json amb) kv).1.1 = Some r ∧
       (body r = CreateSecretResponse (nanoid8 amb)
                   (now_expiresAt amb
                    + clamp_expiration (request_json ≫= expiresIn) * 1000) ∨
        body r ∈ [ErrorResponse "Server configuration error: encryption key not set";
                  ErrorResponse "Missing or invalid encryptedData";
                  ErrorResponse "Payload too large";
                  ErrorResponse "Failed to create secret"]).
Proof.
  intros HS. unfold POST. rewrite HS.
  destruct (truthy (opt_prop (find_env locals) "ENCRYPTION_KEY"));
    [|eexists; split; [done|right; set_solver]].
  destruct request_json as [body|]; [|eexists; split; [done|right; set_solver]].
  cbn [negb or_throw].
  destruct (encryptedData body) as [| | | |[|c s]|];
    try (eexists; split; [done|right; set_solver]).
  destruct (MAX_PAYLOAD_SIZE <? _); [eexists; split; [done|right; set_solver]|].
  destruct (serverEncrypt_with _ _ _ _) as [serverEncrypted|];
    [|eexists; split; [done|right; set_solver]].
  cbn [or_throw].
  destruct (opt_prop (find_env locals) "SECRETS");
    try (eexists; split; [done|right; set_solver]).
  eexists; split; [done|by left].
Qed.

(** The answer when the namespace is not bound. *)
Lemma POST_unbound locals request_json amb kv :
  truthy (opt_prop (find_env locals) "SECRETS") = false →
  run (POST locals request_json amb) kv
  = (Some (jsonResponse
             (ErrorResponse
                ("Server configuration error: KV not bound. Debug: locals keys=["
                 ++ String.concat "," locals.*1 ++ "]")) 500),
     kv, []).
Proof. intros H. unfold POST. by rewrite H. Qed.

(** C8, where the code departs from it. When the namespace is not
    bound, the body of the 500 response lists the names of the members
    of [context.locals]: here [session] and [featureFlags]. *)
Theorem POST_discloses_locals_keys request_json amb kv :
  (run (POST [("session", JObject []); ("featureFlags", JString "beta")]
          request_json amb) kv).1.1
  = Some (jsonResponse
            (ErrorResponse
               "Server configuration error: KV not bound. Debug: locals keys=[session,featureFlags]")
            500).
Proof. by rewrite POST_unbound. Qed.

End PostFacts.

(* ===================================================================== *)
(** ** One request at a time *)
(* ===================================================================== *)

(** A request that is alone on the namespace and resumes until it is done
    does what [run] says: the two readings of a handler agree. *)
Lemma interleave_alone {A} (p : action A) (kv : KVNamespace) :
  ∃ n, interleave (replicate n 0%nat) (World kv [p])
       = World (run p kv).1.2 [finished (run p kv).1.1].
Proof.
  revert kv. induction p as [a| |key k IH|key k IH|key value ttl k IH]; intros kv.
  - by exists 0%nat.
  - by exists 0%nat.
  - destruct (IH (fst <$> kv !! key) kv) as [n Hn]. exists (S n).
    cbn [replicate interleave foldl run] in *.
    by destruct (run (k (fst <$> kv !! key)) kv) as [[r kv'] log].
  - destruct (IH (delete key kv)) as [n Hn]. exists (S n).
    cbn [replicate interleave foldl run] in *.
    by destruct (run k (delete key kv)) as [[r kv'] log].
  - destruct (IH (<[key := (value, ttl)]> kv)) as [n Hn]. exists (S n).
    cbn [replicate interleave foldl run] in *.
    by destruct (run k (<[key := (value, ttl)]> kv)) as [[r kv'] log].
Qed.

(* ===================================================================== *)
(** ** After a delivery *)
(* ===================================================================== *)

Section LifeFacts.
Context {W : WebPlatform}.
Variable ENCRYPTION_KEY : string.
Implicit Types (kv : KVNamespace) (id : string).

Lemma secret_key_inj id1 id2 : "secret:" ++ id1 = "secret:" ++ id2 → id1 = id2.
Proof. by intros [=]. Qed.

(** No event but the creation of the same id brings a key back. *)
Lemma after_event_absent kv id ev :
  kv !! ("secret:" ++ id) = None → minted ev ≠ Some id →
  after_event ENCRYPTION_KEY kv ev !! ("secret:" ++ id) = None.
Proof.
  intros Hkv Hev. destruct ev as [id'|locals request_json amb|key]; simpl.
  - by apply onRequestGet_lookup_None.
  - destruct (POST_store locals request_json amb kv) as [->|(v & t & ->)]; [done|].
    rewrite lookup_insert_ne; [done|].
    intros E%secret_key_inj. simpl in Hev. congruence.
  - apply lookup_delete_None. by right.
Qed.

Lemma after_events_absent kv id evs :
  kv !! ("secret:" ++ id) = None →
  Forall (λ ev, minted ev ≠ Some id) evs →
  after_events ENCRYPTION_KEY kv evs !! ("secret:" ++ id) = None.
Proof.
  intros Hkv Hevs. revert kv Hkv.
  induction Hevs as [|ev evs Hev _ IH]; intros kv Hkv; [done|].
  simpl. apply IH. by apply after_event_absent.
Qed.

(** A retrieval that answers 200 had a well-shaped id and has deleted
    the record. *)
Lemma delivered_deleted id kv r kv1 log :
  run (onRequestGet ENCRYPTION_KEY id) kv = (Some r, kv1, log) →
  status r = 200 →
  (6 ≤ String.length id ≤ 12)%nat ∧ kv1 = delete ("secret:" ++ id) kv.
Proof.
  rewrite run_onRequestGet. unfold retrieval.
  repeat case_match; intros [= <- <- <-]; simpl; intros; done.
Qed.

(** C2. Once a retrieval of an id has succeeded, the record is gone for
    good: whatever retrievals, expiries and creations of other ids
    follow, a retrieval of that id finds nothing and answers 404. *)
Theorem delivered_is_terminal id kv r kv1 log evs :
  run (onRequestGet ENCRYPTION_KEY id) kv = (Some r, kv1, log) →
  status r = 200 →
  Forall (λ ev, minted ev ≠ Some id) evs →
  let kv2 := after_events ENCRYPTION_KEY kv1 evs in
  run (onRequestGet ENCRYPTION_KEY id) kv2
  = (Some not_found, kv2, [OpGet ("secret:" ++ id)]).
Proof.
  intros Hrun Hok Hevs kv2.
  destruct (delivered_deleted _ _ _ _ _ Hrun Hok) as [Hn ->].
  apply onRequestGet_absent; [done|].
  apply after_events_absent; [|done]. apply lookup_delete_eq.
Qed.

(** With a well-shaped id the handler starts with the lookup. *)
Lemma resume_get id kv stored ttl secretData :
  (6 ≤ String.length id ≤ 12)%nat →
  kv !! ("secret:" ++ id) = Some (stored, ttl) → stored ≠ "" →
  JSON_parse stored = Some secretData →
  step (onRequestGet ENCRYPTION_KEY id) kv
  = (KVDelete ("secret:" ++ id)
       (match serverDecrypt (data secretData) ENCRYPTION_KEY with
        | Some clientEncrypted => Return (delivered clientEncrypted)
        | None => Return retrieve_failed
        end), kv).
Proof.
  intros Hn Hkv Hs Hp. unfold onRequestGet.
  assert (String.eqb id "" = false) as ->.
  { destruct id; [simpl in Hn; lia|done]. }
  destruct (Nat.ltb_spec (String.length id) 6); [lia|].
  destruct (Nat.ltb_spec 12 (String.length id)); [lia|].
  cbn [orb try_catch step]. rewrite Hkv. cbn [fmap option_fmap option_map fst].
  destruct stored; [done|]. rewrite Hp. cbn [or_throw try_catch].
  by destruct (serverDecrypt _ _).
Qed.

(** C1, where the code departs from it. The lookup and the removal are
    two separate calls on the namespace.  When two retrievals of the
    same id are in flight and both look the record up before either
    deletes it, both are answered 200 with the secret. *)
Theorem concurrent_retrievals_both_delivered id kv stored ttl secretData c :
  (6 ≤ String.length id ≤ 12)%nat →
  kv !! ("secret:" ++ id) = Some (stored, ttl) → stored ≠ "" →
  JSON_parse stored = Some secretData →
  serverDecrypt (data secretData) ENCRYPTION_KEY = Some c →
  interleave [0; 1; 0; 1]%nat
    (World kv [onRequestGet ENCRYPTION_KEY id; onRequestGet ENCRYPTION_KEY id])
  = World (delete ("secret:" ++ id) kv)
      [Return (delivered c); Return (delivered c)].
Proof.
  intros Hn Hkv Hs Hp Hd.
  unfold interleave. cbn [foldl]. unfold resume at 4. cbn [requests store lookup list_lookup].
  rewrite (resume_get id kv stored ttl secretData) by done. rewrite Hd.
  cbn [insert list_insert]. unfold resume at 3. cbn [requests store lookup list_lookup].
  rewrite (resume_get id kv stored ttl secretData) by done. rewrite Hd.
  cbn. by rewrite delete_delete_eq.
Qed.

End LifeFacts.

(* ===================================================================== *)
(** ** The theorems at work on the example deployment *)
(* ===================================================================== *)

Section Examples.
Import Example.

(** Scenario A: a secret is created, retrieved once, and gone. *)
Example create_then_retrieve :
  run (POST locals (Some (request (Some 3600))) ambient) ∅
    = (Some (jsonResponse (CreateSecretResponse "V1StGXR8" 1700003600005) 201),
       created,
       [OpPut key (JSON_stringify
                     {| data := default "" (serverEncrypt "aGVsbG8=" "AAEC"
                                  (random_salt ambient) (random_iv ambient));
                        createdAt := 1700000000000 |}) 3600]) ∧
  run (onRequestGet "AAEC" "V1StGXR8") created
    = (Some (delivered "aGVsbG8="), ∅, [OpGet key; OpDelete key]) ∧
  run (onRequestGet "AAEC" "V1StGXR8") ∅
    = (Some not_found, ∅, [OpGet key]).
Proof. split; [|split]; vm_compute; reflexivity. Qed.

(** Scenarios B and C: the TTL is clamped. *)
Example clamp_scenarios :
  clamp_expiration (Some 999999999) = 604800 ∧
  clamp_expiration (Some 1) = 60 ∧
  clamp_expiration None = 86400.
Proof. done. Qed.

Lemma onRequestGet_id_shape_witness :
  run (onRequestGet "AAEC" "abcde") created = (Some invalid_id, created, []) ∧
  run (onRequestGet "AAEC" "abcdefghijklm") created
    = (Some invalid_id, created, []) ∧
  (∃ r kv' log,
     run (onRequestGet "AAEC" "abcdef") created
     = (Some r, kv', OpGet "secret:abcdef" :: log) ∧ r ≠ invalid_id) ∧
  (∃ r kv' log,
     run (onRequestGet "AAEC" "abcdefghijkl") created
     = (Some r, kv', OpGet "secret:abcdefghijkl" :: log) ∧ r ≠ invalid_id).
Proof.
  split_and!.
  - apply (onRequestGet_id_shape "AAEC" "abcde" created). simpl. lia.
  - apply (onRequestGet_id_shape "AAEC" "abcdefghijklm" created). simpl. lia.
  - apply (onRequestGet_id_shape "AAEC" "abcdef" created). simpl. lia.
  - apply (onRequestGet_id_shape "AAEC" "abcdefghijkl" created). simpl. lia.
Defined.

(** C3 fails on the code: a record is present, its retrieval fails at
    the envelope decryption with the 500 error, and the record is no
    longer in the namespace; the next call is answered 404. *)
Lemma failed_retrieval_deletes_record :
  let kv : KVNamespace := {[ key := (broken, 3600) ]} in
  kv !! key = Some (broken, 3600) ∧
  run (onRequestGet "AAEC" "V1StGXR8") kv
    = (Some retrieve_failed, ∅, [OpGet key; OpDelete key]) ∧
  (∅ : KVNamespace) !! key = None ∧
  run (onRequestGet "AAEC" "V1StGXR8") ∅ = (Some not_found, ∅, [OpGet key]).
Proof. intros kv. repeat split; vm_compute; reflexivity. Qed.

Lemma onRequestGet_deletes_before_decrypt_witness :
  let kv : KVNamespace := {[ key := (broken, 3600) ]} in
  let '(r, kv', _) := run (onRequestGet "AAEC" "V1StGXR8") kv in
  match JSON_parse broken with
  | Some secretData =>
      kv' = delete key kv ∧
      (serverDecrypt (data secretData) "AAEC" = None →
       r = Some retrieve_failed) ∧
      run (onRequestGet "AAEC" "V1StGXR8") kv'
      = (Some not_found, kv', [OpGet key])
  | None => r = Some retrieve_failed ∧ kv' = kv
  end.
Proof.
  intros kv.
  apply (onRequestGet_deletes_before_decrypt "AAEC" "V1StGXR8" kv broken 3600);
    [simpl; lia | reflexivity | discriminate].
Defined.

Lemma onRequestGet_ignores_createdAt_witness :
  let s1 := JSON_stringify {| data := "AAAA"; createdAt := 1700000000000 |} in
  let s2 := JSON_stringify {| data := "AAAA"; createdAt := 5 |} in
  let out1 := run (onRequestGet "AAEC" "V1StGXR8") (<[key := (s1, 60)]> ∅) in
  let out2 := run (onRequestGet "AAEC" "V1StGXR8") (<[key := (s2, 60)]> ∅) in
  s1 ≠ s2 ∧
  out1.1.1 = out2.1.1 ∧ out1.2 = out2.2 ∧
  ((6 ≤ String.length "V1StGXR8" ≤ 12)%nat → key = "secret:" ++ "V1StGXR8" →
   out1.1.2 = out2.1.2).
Proof.
  intros s1 s2 out1 out2. split; [discriminate|].
  apply (onRequestGet_ignores_createdAt (L := TestPlatform_laws)
           "AAEC" "V1StGXR8" ∅ key s1 s2
           {| data := "AAAA"; createdAt := 1700000000000 |}
           {| data := "AAAA"; createdAt := 5 |} 60);
    reflexivity.
Defined.

Lemma POST_clamps_expiration_witness :
  let body := request (Some 999999999) in
  let ttl := clamp_expiration (expiresIn body) in
  let key := "secret:" ++ nanoid8 ambient in
  (∃ value,
     run (POST locals (Some body) ambient) ∅
     = (Some (jsonResponse
                (CreateSecretResponse (nanoid8 ambient)
                   (now_expiresAt ambient + ttl * 1000)) 201),
        <[key := (value, ttl)]> ∅,
        [OpPut key value ttl])) ∧
  60 ≤ ttl ≤ 604800 ∧
  (expiresIn body = None → ttl = 86400) ∧
  (∀ n, expiresIn body = Some n →
        (n < 60 → ttl = 60) ∧ (604800 < n → ttl = 604800) ∧
        (60 ≤ n ≤ 604800 → ttl = n)).
Proof.
  intros body.
  apply (POST_clamps_expiration locals body ambient ∅ "AAEC" "aGVsbG8=");
    [reflexivity | reflexivity | discriminate | by eexists
    | reflexivity | discriminate | vm_compute; discriminate].
Defined.


Lemma delivered_is_terminal_witness :
  let kv2 := after_events "AAEC" ∅ aftermath in
  run (onRequestGet "AAEC" "V1StGXR8") created
    = (Some (delivered "aGVsbG8="), ∅, [OpGet key; OpDelete key]) ∧
  run (onRequestGet "AAEC" "V1StGXR8") kv2
    = (Some not_found, kv2, [OpGet ("secret:" ++ "V1StGXR8")]).
Proof.
  intros kv2. split; [vm_compute; reflexivity|].
  apply (delivered_is_terminal "AAEC" "V1StGXR8" created
           (delivered "aGVsbG8=") ∅ [OpGet key; OpDelete key] aftermath);
    [vm_compute; reflexivity | reflexivity | repeat constructor; discriminate].
Defined.

Lemma concurrent_retrievals_both_delivered_witness :
  created !! key = Some (stored_text, 3600) ∧
  interleave [0; 1; 0; 1]%nat
    (World created [onRequestGet "AAEC" "V1StGXR8";
                    onRequestGet "AAEC" "V1StGXR8"])
  = World (delete ("secret:" ++ "V1StGXR8") created)
      [Return (delivered "aGVsbG8="); Return (delivered "aGVsbG8=")].
Proof.
  split; [vm_compute; reflexivity|].
  apply (concurrent_retrievals_both_delivered "AAEC" "V1StGXR8" created
           stored_text 3600 stored_secret "aGVsbG8=");
    [simpl; lia | vm_compute; reflexivity | discriminate
    | vm_compute; reflexivity | vm_compute; reflexivity].
Defined.

End Examples.

(* ===================================================================== *)
(** * Further properties *)
(* ===================================================================== *)

(* ===================================================================== *)
(** ** The base64 helpers of [src/lib/crypto.ts] *)
(* ===================================================================== *)

Section EncodingFacts.
Import Base64.

Lemma from_url_ordinary c : ordinary c → from_url c = c.
Proof. intros (_ & E2 & E3 & _). unfold from_url. by rewrite E2, E3. Qed.

(** The base64url decoder leaves a padded base64 text as it is. *)
Lemma repad_btoa s :
  repad (replace_all "_" "/" (replace_all "-" "+" (btoa s))) = btoa s.
Proof.
  induction s as [|a|a b|a b c r IH] using string_ind3; cbn [btoa].
  - reflexivity.
  - rewrite !from_url_cons, !from_url_ordinary by apply b64char_ordinary.
    reflexivity.
  - rewrite !from_url_cons, !from_url_ordinary by apply b64char_ordinary.
    reflexivity.
  - rewrite !from_url_cons, !from_url_ordinary by apply b64char_ordinary.
    by rewrite repad_group, IH.
Qed.

(** X1. Both encodings of a buffer of any length decode to that buffer;
    the base64url decoder also reads the padded base64 text; and two
    buffers with the same base64url text are the same buffer. *)
Theorem base64_round_trips (buffer buffer' : list byte) :
  base64ToArrayBuffer (arrayBufferToBase64 buffer) = Some buffer ∧
  base64urlToArrayBuffer (arrayBufferToBase64url buffer) = Some buffer ∧
  base64urlToArrayBuffer (arrayBufferToBase64 buffer) = Some buffer ∧
  (arrayBufferToBase64url buffer = arrayBufferToBase64url buffer' →
   buffer = buffer').
Proof.
  split_and!.
  - apply base64ToArrayBuffer_arrayBufferToBase64.
  - apply base64url_roundtrip.
  - change (base64urlToArrayBuffer (arrayBufferToBase64 buffer))
      with (base64ToArrayBuffer
              (repad (replace_all "_" "/" (replace_all "-" "+"
                 (btoa (string_of_list_byte buffer)))))).
    rewrite repad_btoa. apply base64ToArrayBuffer_arrayBufferToBase64.
  - intros E. apply (f_equal base64urlToArrayBuffer) in E.
    rewrite !base64url_roundtrip in E. congruence.
Qed.

Lemma to_url_safe n : is_url_safe (to_url (b64char n)) = true.
Proof.
  destruct n as [|p]; [reflexivity|].
  do 6 (destruct p as [p|p|]; try reflexivity).
Qed.

Lemma url_text_safe s :
  string_forallb is_url_safe
    (strip_padding (replace_all "/" "_" (replace_all "+" "-" (btoa s)))) = true.
Proof.
  induction s as [|a|a b|a b c r IH] using string_ind3; cbn [btoa].
  - reflexivity.
  - destruct (to_url_ordinary _ (b64char_ordinary (N_of_ascii a / 4))) as (P0 & _).
    destruct (to_url_ordinary _ (b64char_ordinary (N_of_ascii a mod 4 * 16)))
      as (P1 & _).
    rewrite !to_url_cons, !strip_padding_cons by assumption.
    cbn. by rewrite !to_url_safe.
  - destruct (to_url_ordinary _ (b64char_ordinary (N_of_ascii a / 4))) as (P0 & _).
    destruct (to_url_ordinary _
      (b64char_ordinary (N_of_ascii a mod 4 * 16 + N_of_ascii b / 16))) as (P1 & _).
    destruct (to_url_ordinary _ (b64char_ordinary (N_of_ascii b mod 16 * 4)))
      as (P2 & _).
    rewrite !to_url_cons, !strip_padding_cons by assumption.
    cbn. by rewrite !to_url_safe.
  - destruct (to_url_ordinary _ (b64char_ordinary (N_of_ascii a / 4))) as (P0 & _).
    destruct (to_url_ordinary _
      (b64char_ordinary (N_of_ascii a mod 4 * 16 + N_of_ascii b / 16))) as (P1 & _).
    destruct (to_url_ordinary _
      (b64char_ordinary (N_of_ascii b mod 16 * 4 + N_of_ascii c / 64))) as (P2 & _).
    destruct (to_url_ordinary _ (b64char_ordinary (N_of_ascii c mod 64)))
      as (P3 & _).
    rewrite !to_url_cons, !strip_padding_cons by assumption.
    cbn [string_forallb]. by rewrite !to_url_safe, IH.
Qed.

(** X2. The base64url text of any buffer is made of letters, digits, [-]
    and [_] only: no [+], [/] or [=] is left, and no [#]. *)
Theorem arrayBufferToBase64url_url_safe (buffer : list byte) :
  string_forallb is_url_safe (arrayBufferToBase64url buffer) = true ∧
  no_hash (arrayBufferToBase64url buffer) = true.
Proof.
  assert (string_forallb is_url_safe (arrayBufferToBase64url buffer) = true) as H
    by apply url_text_safe.
  split; [done|]. unfold no_hash.
  induction (arrayBufferToBase64url buffer) as [|c r IH]; [done|].
  cbn [string_forallb] in *. apply andb_true_iff in H as [Hc Hr].
  rewrite IH by done. rewrite andb_true_r.
  destruct (Ascii.eqb_spec c "#") as [->|]; [by vm_compute in Hc|done].
Qed.

Lemma length_string_of_list_byte (l : list byte) :
  String.length (string_of_list_byte l) = length l.
Proof.
  unfold string_of_list_byte. induction l as [|b l IH]; simpl; [done|].
  by rewrite IH.
Qed.

Lemma length_list_byte_of_string (s : string) :
  length (list_byte_of_string s) = String.length s.
Proof.
  unfold list_byte_of_string. induction s as [|c s IH]; simpl; [done|].
  by rewrite IH.
Qed.

Lemma url_text_length s :
  String.length
    (strip_padding (replace_all "/" "_" (replace_all "+" "-" (btoa s))))
  = ((4 * String.length s + 2) / 3)%nat ∧
  String.length (btoa s) = (4 * ((String.length s + 2) / 3))%nat.
Proof.
  induction s as [|a|a b|a b c r [IH1 IH2]] using string_ind3; cbn [btoa].
  - done.
  - destruct (to_url_ordinary _ (b64char_ordinary (N_of_ascii a / 4))) as (P0 & _).
    destruct (to_url_ordinary _ (b64char_ordinary (N_of_ascii a mod 4 * 16)))
      as (P1 & _).
    rewrite !to_url_cons, !strip_padding_cons by assumption. done.
  - destruct (to_url_ordinary _ (b64char_ordinary (N_of_ascii a / 4))) as (P0 & _).
    destruct (to_url_ordinary _
      (b64char_ordinary (N_of_ascii a mod 4 * 16 + N_of_ascii b / 16))) as (P1 & _).
    destruct (to_url_ordinary _ (b64char_ordinary (N_of_ascii b mod 16 * 4)))
      as (P2 & _).
    rewrite !to_url_cons, !strip_padding_cons by assumption. done.
  - destruct (to_url_ordinary _ (b64char_ordinary (N_of_ascii a / 4))) as (P0 & _).
    destruct (to_url_ordinary _
      (b64char_ordinary (N_of_ascii a mod 4 * 16 + N_of_ascii b / 16))) as (P1 & _).
    destruct (to_url_ordinary _
      (b64char_ordinary (N_of_ascii b mod 16 * 4 + N_of_ascii c / 64))) as (P2 & _).
    destruct (to_url_ordinary _ (b64char_ordinary (N_of_ascii c mod 64)))
      as (P3 & _).
    rewrite !to_url_cons, !strip_padding_cons by assumption.
    cbn [String.length]. rewrite IH1, IH2. split.
    + replace (4 * S (S (S (String.length r))) + 2)%nat
        with ((4 * String.length r + 2) + 4 * 3)%nat by lia.
      rewrite Nat.div_add by lia. lia.
    + replace (S (S (S (String.length r))) + 2)%nat
        with ((String.length r + 2) + 1 * 3)%nat by lia.
      rewrite Nat.div_add by lia. lia.
Qed.

(** X3. The length of the two encodings: a buffer of [n] bytes gives
    [4 * ceil (n / 3)] characters of base64 and [ceil (4 n / 3)] of
    base64url; a generated key, made from 32 bytes, has 43 characters. *)
Theorem encoding_lengths (buffer : list byte) :
  String.length (arrayBufferToBase64 buffer)
    = (4 * ((length buffer + 2) / 3))%nat ∧
  String.length (arrayBufferToBase64url buffer)
    = ((4 * length buffer + 2) / 3)%nat ∧
  (length buffer = 32%nat → String.length (generateKey buffer) = 43%nat).
Proof.
  destruct (url_text_length (string_of_list_byte buffer)) as [H1 H2].
  rewrite length_string_of_list_byte in H1, H2.
  split_and!; [done|done|]. intros E. unfold generateKey.
  change (String.length (arrayBufferToBase64url buffer)) with
    (String.length (strip_padding (replace_all "/" "_" (replace_all "+" "-"
       (btoa (string_of_list_byte buffer)))))).
  by rewrite H1, E.
Qed.

End EncodingFacts.

(* ===================================================================== *)
(** ** The key-shape check and the share link *)
(* ===================================================================== *)

Section KeyFacts.
Import Base64.

(** Strings by groups of four characters. *)
Lemma string_ind4 (P : string → Prop) :
  P EmptyString →
  (∀ a, P (String a EmptyString)) →
  (∀ a b, P (String a (String b EmptyString))) →
  (∀ a b c, P (String a (String b (String c EmptyString)))) →
  (∀ a b c d r, P r → P (String a (String b (String c (String d r))))) →
  ∀ s, P s.
Proof.
  intros H0 H1 H2 H3 H4.
  assert (H : ∀ s, P s ∧ (∀ a, P (String a s)) ∧
                   (∀ a b, P (String a (String b s))) ∧
                   (∀ a b c, P (String a (String b (String c s))))).
  { induction s as [|c s (IH0 & IH1 & IH2 & IH3)]; [by auto|].
    split_and!; [apply IH1|intros; apply IH2|intros; apply IH3
                |intros; by apply H4]. }
  intros s. apply H.
Qed.

Lemma b64val_not_pad c n : b64val c = Some n → Ascii.eqb c "=" = false.
Proof. destruct (Ascii.eqb_spec c "=") as [->|]; [by vm_compute|done]. Qed.

Lemma dec2_Some w x t :
  dec2 w x = Some t →
  String.length t = 1%nat ∧ Ascii.eqb w "=" = false ∧ Ascii.eqb x "=" = false.
Proof.
  unfold dec2. destruct (b64val w) eqn:Ew; [|done].
  destruct (b64val x) eqn:Ex; [|done]. simpl. intros [= <-].
  eauto using b64val_not_pad.
Qed.

Lemma dec3_Some w x y t :
  dec3 w x y = Some t →
  String.length t = 2%nat ∧ Ascii.eqb w "=" = false ∧
  Ascii.eqb x "=" = false ∧ Ascii.eqb y "=" = false.
Proof.
  unfold dec3. destruct (b64val w) eqn:Ew; [|done].
  destruct (b64val x) eqn:Ex; [|done]. destruct (b64val y) eqn:Ey; [|done].
  simpl. intros [= <-].
  repeat split; try done; eapply b64val_not_pad; eassumption.
Qed.

Lemma dec4_Some w x y z tl t :
  dec4 w x y z tl = Some t →
  ∃ t', tl = Some t' ∧ String.length t = (3 + String.length t')%nat ∧
        Ascii.eqb w "=" = false ∧ Ascii.eqb x "=" = false ∧
        Ascii.eqb y "=" = false ∧ Ascii.eqb z "=" = false.
Proof.
  unfold dec4. destruct (b64val w) eqn:Ew; [|done].
  destruct (b64val x) eqn:Ex; [|done]. destruct (b64val y) eqn:Ey; [|done].
  destruct (b64val z) eqn:Ez; [|done]. destruct tl as [t'|]; [|done].
  simpl. intros [= <-]. exists t'.
  repeat split; try done; eapply b64val_not_pad; eassumption.
Qed.

(** Three bytes take four characters, none of them a padding. *)
Lemma decode_length s t :
  decode s = Some t → (4 * String.length t ≤ 3 * unpadded_length s)%nat.
Proof.
  revert t. induction s as [|a|a b|a b c|a b c d r IH] using string_ind4;
    intros t; cbn [decode].
  - by intros [= <-].
  - done.
  - intros (-> & Ha & Hb)%dec2_Some. cbn [unpadded_length]. rewrite Ha, Hb. lia.
  - intros (-> & Ha & Hb & Hc)%dec3_Some. cbn [unpadded_length].
    rewrite Ha, Hb, Hc. lia.
  - assert (dec4 a b c d (decode r) = Some t →
            (4 * String.length t ≤
             3 * unpadded_length (String a (String b (String c (String d r)))))%nat)
      as Hfull.
    { intros (t' & Hr & -> & Ha & Hb & Hc & Hd)%dec4_Some.
      cbn [unpadded_length]. rewrite Ha, Hb, Hc, Hd.
      specialize (IH _ Hr). lia. }
    destruct r as [|e r]; [|done]. unfold pad.
    destruct (Ascii.eqb d "=") eqn:Hd; [|done].
    destruct (Ascii.eqb c "=") eqn:Hc.
    + intros (-> & Ha & Hb)%dec2_Some. cbn [unpadded_length].
      rewrite Ha, Hb, Hc, Hd. lia.
    + intros (-> & Ha & Hb & _)%dec3_Some. cbn [unpadded_length].
      rewrite Ha, Hb, Hc, Hd. lia.
Qed.

Lemma unpadded_length_le s : (unpadded_length s ≤ String.length s)%nat.
Proof.
  induction s as [|c s IH]; [done|]. cbn.
  destruct (Ascii.eqb c "="); lia.
Qed.

Lemma unpadded_length_strip_whitespace s :
  (unpadded_length (strip_whitespace s) ≤ unpadded_length s)%nat.
Proof.
  induction s as [|c s IH]; [done|]. cbn.
  destruct (is_ascii_whitespace c); cbn; destruct (Ascii.eqb c "="); lia.
Qed.

Lemma unpadded_length_repeat_eq s n :
  unpadded_length (s ++ repeat_eq n) = unpadded_length s.
Proof.
  induction s as [|c s IH].
  - induction n as [|n IH]; [done|]. cbn. done.
  - change (String c s ++ repeat_eq n) with (String c (s ++ repeat_eq n)).
    cbn [unpadded_length]. by rewrite IH.
Qed.

Lemma length_replace_all c d s :
  String.length (replace_all c d s) = String.length s.
Proof. induction s as [|a s IH]; [done|]. cbn. by rewrite IH. Qed.

(** A text that [base64urlToArrayBuffer] decodes has four characters for
    every three bytes, at least. *)
Lemma base64urlToArrayBuffer_length k buffer :
  base64urlToArrayBuffer k = Some buffer →
  (4 * length buffer ≤ 3 * String.length k)%nat.
Proof.
  unfold base64urlToArrayBuffer, base64ToArrayBuffer, atob. cbv zeta.
  set (k' := replace_all "_" "/" (replace_all "-" "+" k)).
  set (padded := if (String.length k' mod 4 =? 0)%nat then k'
                 else k' ++ repeat_eq (4 - String.length k' mod 4)).
  destruct (decode (strip_whitespace padded)) as [t|] eqn:Ht; [|done].
  simpl. intros [= <-]. rewrite length_list_byte_of_string.
  apply decode_length in Ht.
  pose proof (unpadded_length_strip_whitespace padded).
  assert (unpadded_length padded = unpadded_length k') as E.
  { subst padded. destruct (_ =? _)%nat; [done|].
    apply unpadded_length_repeat_eq. }
  pose proof (unpadded_length_le k').
  assert (String.length k' = String.length k) as E'.
  { subst k'. by rewrite !length_replace_all. }
  lia.
Qed.

(** X4. A text that [isValidKey] accepts has at least 43 characters, and
    [importKey] turns it into a raw key of 32 bytes: every shorter text,
    the empty one included, is refused. *)
Theorem isValidKey_shape (key : string) :
  isValidKey key = true →
  (43 ≤ String.length key)%nat ∧
  ∃ rawKey, importKey key = Some rawKey ∧ length rawKey = 32%nat.
Proof.
  unfold isValidKey, importKey.
  destruct (base64urlToArrayBuffer key) as [buffer|] eqn:E; [|done].
  intros Hlen%Nat.eqb_eq. apply base64urlToArrayBuffer_length in E.
  split; [lia|]. exists buffer. simpl. unfold importKey_raw_AES.
  by rewrite Hlen.
Qed.

Lemma append_cons c (a b : string) : String c a ++ b = String c (a ++ b).
Proof. reflexivity. Qed.

Lemma from_first_hash_app a b :
  no_hash a = true → from_first_hash (a ++ String "#" b) = String "#" b.
Proof.
  unfold no_hash. induction a as [|c a IH]; [done|]. intros H.
  rewrite append_cons. simpl in H |- *.
  destruct (Ascii.eqb c "#"); [done|]. by apply IH.
Qed.

Lemma without_fragment_app a b :
  no_hash a = true → without_fragment (a ++ String "#" b) = a.
Proof.
  unfold no_hash. induction a as [|c a IH]; [done|]. intros H.
  rewrite append_cons. simpl in H |- *.
  destruct (Ascii.eqb c "#"); [done|]. by rewrite IH.
Qed.

Lemma no_hash_app a b : no_hash (a ++ b) = no_hash a && no_hash b.
Proof.
  unfold no_hash. induction a as [|c a IH]; [done|].
  rewrite append_cons. simpl. by rewrite IH, andb_assoc.
Qed.

Lemma string_app_assoc (a b c : string) : (a ++ b) ++ c = a ++ (b ++ c).
Proof. induction a as [|x a IH]; [done|]. by rewrite !append_cons, IH. Qed.

Lemma createShareUrl_split window id key :
  createShareUrl window id key
  = (origin_of window ++ "/view/" ++ id) ++ String "#" key.
Proof.
  unfold createShareUrl, origin_of.
  destruct window; rewrite !string_app_assoc; reflexivity.
Qed.

Lemma generateKey_shape rawKey :
  length rawKey = 32%nat →
  String.length (generateKey rawKey) = 43%nat ∧
  isValidKey (generateKey rawKey) = true.
Proof.
  intros Hlen. split.
  - unfold generateKey.
    pose proof (url_text_length (string_of_list_byte rawKey)) as [H _].
    rewrite length_string_of_list_byte, Hlen in H. apply H.
  - unfold isValidKey, generateKey. by rewrite base64url_roundtrip, Hlen.
Qed.

(** The key of a share link, read back from the hash of the page. *)
Lemma getKeyFromHash_share_url window id rawKey page_origin :
  length rawKey = 32%nat →
  no_hash (origin_of window) = true → no_hash id = true →
  getKeyFromHash
    (Some {| origin := page_origin;
             hash := location_hash
                       (createShareUrl window id (generateKey rawKey)) |})
  = Some (generateKey rawKey).
Proof.
  intros Hlen Ho Hid. rewrite createShareUrl_split.
  assert (no_hash (origin_of window ++ "/view/" ++ id) = true) as Hpre.
  { rewrite no_hash_app, Ho. cbn. exact Hid. }
  unfold location_hash. rewrite from_first_hash_app by done.
  destruct (generateKey_shape rawKey Hlen) as [Hk Hv].
  destruct (generateKey rawKey) as [|c key']; [done|].
  unfold getKeyFromHash. cbn [hash String.eqb Ascii.eqb slice1 String.length].
  cbn. by rewrite Hv.
Qed.

(** X5. The share link made for a generated key, opened in a browser:
    [getKeyFromHash] finds exactly that key in [location.hash], and what
    precedes the [#], which is all the server is sent, is the page address
    without the key.  The origin and the id contain no [#]. *)
Theorem share_link_carries_key (window : option Window) (id : string)
    (rawKey : list byte) (page_origin : string) :
  length rawKey = 32%nat →
  no_hash (origin_of window) = true → no_hash id = true →
  let key := generateKey rawKey in
  let url := createShareUrl window id key in
  getKeyFromHash (Some {| origin := page_origin; hash := location_hash url |})
    = Some key ∧
  without_fragment url = origin_of window ++ "/view/" ++ id.
Proof.
  intros Hlen Ho Hid key url. split.
  - by apply getKeyFromHash_share_url.
  - subst url. rewrite createShareUrl_split.
    apply without_fragment_app. rewrite no_hash_app, Ho. cbn. exact Hid.
Qed.

(** X6. Whatever [getKeyFromHash] returns is the hash without its first
    character and passes [isValidKey], so the hash has 44 characters or
    more; without a window, or with a hash of fewer than two characters,
    it returns nothing. *)
Theorem getKeyFromHash_sound (window : option Window) :
  (∀ key, getKeyFromHash window = Some key →
     ∃ w c, window = Some w ∧ hash w = String c key ∧
            isValidKey key = true ∧ (44 ≤ String.length (hash w))%nat) ∧
  (window = None ∨
   (∃ w, window = Some w ∧ (String.length (hash w) < 2)%nat) →
   getKeyFromHash window = None).
Proof.
  split.
  - intros key. unfold getKeyFromHash. destruct window as [w|]; [|done].
    destruct (hash w) as [|c h] eqn:Eh; [done|].
    cbn [String.eqb orb slice1].
    destruct (String.length (String c h) <? 2)%nat; [done|].
    destruct (isValidKey h) eqn:Hv; [|done]. intros [= <-].
    exists w, c. rewrite Eh. split_and!; [done..|].
    destruct (base64urlToArrayBuffer h) as [buffer|] eqn:E;
      [|by unfold isValidKey in Hv; rewrite E in Hv].
    unfold isValidKey in Hv. rewrite E in Hv. apply Nat.eqb_eq in Hv.
    apply base64urlToArrayBuffer_length in E. cbn. lia.
  - intros [->|(w & -> & Hlen)]; [done|]. unfold getKeyFromHash.
    destruct (Nat.ltb_spec (String.length (hash w)) 2); [|lia].
    by rewrite orb_true_r.
Qed.

End KeyFacts.

(* ===================================================================== *)
(** ** The two handlers on the namespace *)
(* ===================================================================== *)

Section HandlerFacts.
Context {W : WebPlatform}.
Implicit Types (kv : KVNamespace) (locals : list (string * jsval)).

(** X7. A creation is all or nothing.  Either it answers 201 with the
    minted id and has made exactly one [put], under ["secret:" ++ id] and
    with a TTL between 60 and 604800 seconds; or it answers with an error
    body and another status, has made no call on the namespace and has
    left it as it was.  This holds for every binding and clock, and for
    every body whose [expiresIn] is a whole number, [null] or absent,
    whatever its [encryptedData] is. *)
Theorem POST_all_or_nothing locals request_json amb kv :
  ∃ r, (run (POST locals request_json amb) kv).1.1 = Some r ∧
  let kv' := (run (POST locals request_json amb) kv).1.2 in
  let log := (run (POST locals request_json amb) kv).2 in
  let key := "secret:" ++ nanoid8 amb in
  (status r = 201 ∧
   (∃ expiresAt, body r = CreateSecretResponse (nanoid8 amb) expiresAt) ∧
   ∃ value ttl, log = [OpPut key value ttl] ∧ kv' = <[key := (value, ttl)]> kv ∧
                60 ≤ ttl ≤ 604800) ∨
  (status r ≠ 201 ∧ (∃ e, body r = ErrorResponse e) ∧ log = [] ∧ kv' = kv).
Proof.
  unfold POST.
  destruct (truthy (opt_prop (find_env locals) "SECRETS"));
    [|eexists; split; [done|right; by eauto]].
  destruct (truthy (opt_prop (find_env locals) "ENCRYPTION_KEY"));
    [|eexists; split; [done|right; by eauto]].
  destruct request_json as [request|]; [|eexists; split; [done|right; by eauto]].
  cbn [negb or_throw].
  destruct (encryptedData request) as [| | | |[|c s]|];
    try (eexists; split; [done|right; by eauto]).
  destruct (MAX_PAYLOAD_SIZE <? _); [eexists; split; [done|right; by eauto]|].
  destruct (serverEncrypt_with _ _ _ _) as [serverEncrypted|];
    [|eexists; split; [done|right; by eauto]].
  cbn [or_throw].
  destruct (opt_prop (find_env locals) "SECRETS");
    try (eexists; split; [done|right; by eauto]).
  eexists; split; [done|left]. cbn.
  split_and!; [done|by eauto|].
  eexists _, _. split_and!; [done|done|apply clamp_expiration_range..].
Qed.

(** The answer of a retrieval is decided by what the namespace holds under
    its key. *)
Lemma onRequestGet_response_lookup ENCRYPTION_KEY id kv1 kv2 :
  kv1 !! ("secret:" ++ id) = kv2 !! ("secret:" ++ id) →
  (run (onRequestGet ENCRYPTION_KEY id) kv1).1.1
  = (run (onRequestGet ENCRYPTION_KEY id) kv2).1.1.
Proof.
  intros E. rewrite !run_onRequestGet. unfold retrieval. rewrite E.
  by repeat case_match.
Qed.

Lemma onRequestGet_lookup_ne ENCRYPTION_KEY id kv key :
  key ≠ "secret:" ++ id →
  (run (onRequestGet ENCRYPTION_KEY id) kv).1.2 !! key = kv !! key.
Proof.
  intros Hne. rewrite run_onRequestGet. unfold retrieval.
  repeat case_match; simpl; try done; by rewrite lookup_delete_ne.
Qed.

(** X8. A retrieval touches nothing but its own key.  Every other key of
    the namespace is left as it was; the namespace afterwards is the one
    before, or that one without ["secret:" ++ id]; no [put] is ever made;
    and an answer of 400 or 404 leaves the namespace unchanged. *)
Theorem onRequestGet_touches_only_its_key ENCRYPTION_KEY id kv :
  let '(r, kv', log) := run (onRequestGet ENCRYPTION_KEY id) kv in
  (∀ key, key ≠ "secret:" ++ id → kv' !! key = kv !! key) ∧
  (kv' = kv ∨ kv' = delete ("secret:" ++ id) kv) ∧
  (∀ op, op ∈ log → op = OpGet ("secret:" ++ id) ∨ op = OpDelete ("secret:" ++ id)) ∧
  (∀ resp, r = Some resp → status resp = 400 ∨ status resp = 404 → kv' = kv).
Proof.
  rewrite run_onRequestGet. unfold retrieval.
  destruct (decide _);
    [destruct (kv !! _) as [[[|c s] ttl]|];
       [|destruct (JSON_parse _); [destruct (serverDecrypt _ _)|]|]|];
    (split;
     [ intros key' Hne; try done; by rewrite lookup_delete_ne
     | split;
       [ by eauto
       | split;
         [ intros op Hop;
           repeat (apply elem_of_cons in Hop as [->|Hop]; [by eauto|]);
           by apply elem_of_nil in Hop
         | intros resp [= <-]; simpl; intros [?|?]; done ] ] ]).
Qed.

(** X16. A retrieval always answers, and with one of four responses:
    the three errors, whose texts are fixed, or the delivery. *)
Theorem onRequestGet_errors ENCRYPTION_KEY id kv :
  ∃ r, (run (onRequestGet ENCRYPTION_KEY id) kv).1.1 = Some r ∧
       (r = invalid_id ∨ r = not_found ∨ r = retrieve_failed ∨
        ∃ clientEncrypted, r = delivered clientEncrypted).
Proof.
  rewrite run_onRequestGet. unfold retrieval.
  destruct (decide _);
    [destruct (kv !! _) as [[[|c s] ttl]|];
       [|destruct (JSON_parse _); [destruct (serverDecrypt _ _)|]|]|];
    eexists; (split; [reflexivity|]); eauto 6.
Qed.

(** X9. Secrets do not disturb each other: the retrieval of another id,
    the creation of a secret under another id and the expiry of another
    key leave the answer to a retrieval of [id] as it was. *)
Theorem other_secrets_do_not_interfere ENCRYPTION_KEY id kv ev :
  match ev with
  | Retrieve id' => id' ≠ id
  | Create _ _ amb => nanoid8 amb ≠ id
  | Expire key => key ≠ "secret:" ++ id
  end →
  (run (onRequestGet ENCRYPTION_KEY id) (after_event ENCRYPTION_KEY kv ev)).1.1
  = (run (onRequestGet ENCRYPTION_KEY id) kv).1.1.
Proof.
  intros Hev. apply onRequestGet_response_lookup.
  destruct ev as [id'|locals request_json amb|key]; simpl.
  - apply onRequestGet_lookup_ne. intros E%secret_key_inj. congruence.
  - destruct (POST_store locals request_json amb kv) as [->|(v & t & ->)]; [done|].
    rewrite lookup_insert_ne; [done|]. intros E%secret_key_inj. congruence.
  - by rewrite lookup_delete_ne.
Qed.

End HandlerFacts.

(* ===================================================================== *)
(** ** From the creation to the retrieval *)
(* ===================================================================== *)

Section CreateRetrieveFacts.
Context {W : WebPlatform} {L : WebPlatformLaws W}.
Implicit Types (kv : KVNamespace) (locals : list (string * jsval)).

Lemma POST_accepts locals request amb kv masterKey s :
  configured locals masterKey →
  encryptedData request = JsonString s → s ≠ "" →
  Z.of_nat (String.length s) ≤ MAX_PAYLOAD_SIZE →
  let ttl := clamp_expiration (expiresIn request) in
  let key := "secret:" ++ nanoid8 amb in
  is_Some (serverEncrypt s masterKey (random_salt amb) (random_iv amb)) ∧
  run (POST locals (Some request) amb) kv
  = (Some (jsonResponse
             (CreateSecretResponse (nanoid8 amb)
                (now_expiresAt amb + ttl * 1000)) 201),
     <[key := (stored_record amb masterKey s, ttl)]> kv,
     [OpPut key (stored_record amb masterKey s) ttl]).
Proof.
  intros (HS & HK & Hm & [keyMaterial Hkm]) Hd Hs Hlen ttl key.
  unfold stored_record, POST. rewrite HS, HK.
  destruct masterKey; [done|]. destruct s as [|c s]; [done|].
  cbn [truthy negb or_throw]. rewrite Hd.
  destruct (Z.ltb_spec MAX_PAYLOAD_SIZE (Z.of_nat (String.length (String c s))));
    [lia|].
  unfold serverEncrypt_with, serverEncrypt. rewrite Hkm. cbn. eauto.
Qed.

Lemma JSON_stringify_nonempty r : JSON_stringify r ≠ "".
Proof.
  intros E. pose proof (JSON_parse_stringify r) as H.
  rewrite E, JSON_parse_empty in H. done.
Qed.

Lemma retrieve_stored_record amb masterKey s kv ttl :
  is_Some (base64ToArrayBuffer masterKey) → well_drawn amb →
  string_forallb is_ascii s = true →
  let key := "secret:" ++ nanoid8 amb in
  kv !! key = Some (stored_record amb masterKey s, ttl) →
  run (onRequestGet masterKey (nanoid8 amb)) kv
  = (Some (delivered s), delete key kv, [OpGet key; OpDelete key]).
Proof.
  intros [keyMaterial Hkm] (Hsalt & Hiv & Hid) Hs key Hkv.
  rewrite (onRequestGet_present _ _ _ _ ttl) by
    first [done | lia | apply JSON_stringify_nonempty].
  unfold stored_record. rewrite JSON_parse_stringify.
  destruct (serverEncrypt s masterKey (random_salt amb) (random_iv amb))
    as [e|] eqn:He.
  2:{ unfold serverEncrypt in He. by rewrite Hkm in He. }
  cbn [default data]. change (id e) with e.
  by rewrite (serverDecrypt_serverEncrypt s masterKey _ _ e Hs Hsalt Hiv He).
Qed.

(** X10. A secret whose payload is ASCII text, as the base64 text that
    [encrypt] produces always is, and that [POST] has accepted is handed
    out by the next [GET] of its id exactly as it was sent, the record is
    deleted by that retrieval, and one more retrieval is answered 404. *)
Theorem create_then_retrieve_once locals request amb kv masterKey s :
  configured locals masterKey → well_drawn amb →
  encryptedData request = JsonString s → s ≠ "" →
  string_forallb is_ascii s = true →
  Z.of_nat (String.length s) ≤ MAX_PAYLOAD_SIZE →
  let secretId := nanoid8 amb in
  let kv1 := (run (POST locals (Some request) amb) kv).1.2 in
  let kv2 := (run (onRequestGet masterKey secretId) kv1).1.2 in
  (run (onRequestGet masterKey secretId) kv1).1.1 = Some (delivered s) ∧
  kv2 = delete ("secret:" ++ secretId) kv ∧
  (run (onRequestGet masterKey secretId) kv2).1.1 = Some not_found.
Proof.
  intros Hc Hw Hd Hs Ha Hlen secretId kv1 kv2.
  destruct (POST_accepts locals request amb kv masterKey s Hc Hd Hs Hlen)
    as [_ HP].
  subst kv2 kv1 secretId. rewrite HP. cbn [fst snd].
  rewrite (retrieve_stored_record amb masterKey s _
             (clamp_expiration (expiresIn request)))
    by first [done | apply Hc | apply lookup_insert_eq].
  cbn [fst snd]. rewrite delete_insert_eq. split_and!; [done..|].
  rewrite onRequestGet_absent; [done| |apply lookup_delete_eq].
  destruct Hw as (_ & _ & Hid). lia.
Qed.

End CreateRetrieveFacts.

(* ===================================================================== *)
(** ** The two pages *)
(* ===================================================================== *)

Section PageFacts.
Context {W : WebPlatform} {L : WebPlatformLaws W}.
Implicit Types (kv : KVNamespace) (locals : list (string * jsval)).

Lemma arrayBufferToBase64_nonempty buffer :
  buffer ≠ [] → arrayBufferToBase64 buffer ≠ "".
Proof.
  intros Hb E. unfold arrayBufferToBase64 in E. apply btoa_empty in E.
  apply (f_equal String.length) in E.
  rewrite length_string_of_list_byte in E. by destruct buffer.
Qed.

(** With a generated key, [encrypt] succeeds and its result is not
    empty. *)
Lemma encrypt_generated text rawKey iv :
  length rawKey = 32%nat → length iv = 12%nat →
  ∃ c, encrypt text (generateKey rawKey) iv = Some c ∧ c ≠ "".
Proof.
  intros Hlen Hiv. unfold encrypt, importKey, generateKey.
  rewrite base64url_roundtrip. cbn. unfold importKey_raw_AES. rewrite Hlen. cbn.
  eexists. split; [done|]. apply arrayBufferToBase64_nonempty.
  by destruct iv.
Qed.

Lemma handleSubmit_accepts window rawKey iv locals amb f kv masterKey c :
  trim (CreateForm.secret f) ≠ [] →
  configured locals masterKey →
  encrypt (CreateForm.secret f) (generateKey rawKey) iv = Some c → c ≠ "" →
  Z.of_nat (String.length c) ≤ MAX_PAYLOAD_SIZE →
  let ttl := clamp_expiration (Some (CreateForm.expiresIn f)) in
  let key := "secret:" ++ nanoid8 amb in
  CreateForm.handleSubmit window rawKey iv locals amb f kv
  = ({| CreateForm.secret := CreateForm.secret f;
        CreateForm.expiresIn := CreateForm.expiresIn f;
        CreateForm.state := CreateForm.success;
        CreateForm.shareUrl :=
          createShareUrl window (nanoid8 amb) (generateKey rawKey);
        CreateForm.error_text := Message "" |},
     <[key := (stored_record amb masterKey c, ttl)]> kv,
     [OpPut key (stored_record amb masterKey c) ttl]).
Proof.
  intros Ht Hc He Hne Hlen ttl key. unfold CreateForm.handleSubmit.
  destruct (trim (CreateForm.secret f)) as [|u r]; [done|].
  cbn [is_empty_text]. rewrite He.
  destruct (POST_accepts locals
              (Build_CreateSecretRequest (JsonString c)
                 (Some (CreateForm.expiresIn f)))
              amb kv masterKey c Hc eq_refl Hne Hlen) as [_ ->].
  reflexivity.
Qed.

Lemma getKeyFromHash_nonempty window key :
  getKeyFromHash window = Some key → key ≠ "".
Proof.
  unfold getKeyFromHash. destruct window as [w|]; [|done].
  destruct (_ || _); [done|].
  destruct (isValidKey (slice1 (hash w))) eqn:Hv; [|done].
  intros [= <-] E. by rewrite E in Hv.
Qed.

Lemma handleReveal_response window secretId ENCRYPTION_KEY v kv key r kv' log :
  getKeyFromHash window = Some key →
  run (onRequestGet ENCRYPTION_KEY secretId) kv = (Some r, kv', log) →
  ViewSecret.handleReveal window secretId ENCRYPTION_KEY v kv
  = if status r =? 404 then
      ({| ViewSecret.state := ViewSecret.not_found;
          ViewSecret.secret := ViewSecret.secret v;
          ViewSecret.error_text := ViewSecret.error_text v |}, kv', log)
    else if negb (response_ok r) then
      ({| ViewSecret.state := ViewSecret.error;
          ViewSecret.secret := ViewSecret.secret v;
          ViewSecret.error_text :=
            Message (error_or (body r) "Failed to retrieve secret") |}, kv', log)
    else
      match
        match body r with
        | GetSecretResponse encryptedData => decrypt encryptedData key
        | _ => None
        end
      with
      | Some decrypted =>
          ({| ViewSecret.state := ViewSecret.revealed;
              ViewSecret.secret := decrypted;
              ViewSecret.error_text := ViewSecret.error_text v |}, kv', log)
      | None =>
          ({| ViewSecret.state := ViewSecret.error;
              ViewSecret.secret := ViewSecret.secret v;
              ViewSecret.error_text := ExceptionMessage |}, kv', log)
      end.
Proof.
  intros Hk Hrun. unfold ViewSecret.handleReveal. rewrite Hk, Hrun.
  pose proof (getKeyFromHash_nonempty _ _ Hk). by destruct key.
Qed.

(** X11. From one page to the other.  The sender submits a secret that is
    not blank and whose ciphertext is within the payload cap; the
    recipient opens the share link, whose page is given the minted id as
    [secretId], and reveals.  The form ends in [success] with the link of
    the minted id and the generated key; the first reveal deletes the
    record and shows the well-formed version of the sender's text, less
    one leading U+FEFF: exactly the sender's text when that has no lone
    surrogate and does not start with U+FEFF; a second reveal of the same
    link ends in [not_found] and shows nothing. *)
Theorem secret_travels_once window page_origin rawKey iv locals amb
    masterKey f kv :
  is_text (CreateForm.secret f) = true →
  trim (CreateForm.secret f) ≠ [] →
  length rawKey = 32%nat → length iv = 12%nat →
  configured locals masterKey → well_drawn amb →
  no_hash (origin_of window) = true → no_hash (nanoid8 amb) = true →
  (∀ c, encrypt (CreateForm.secret f) (generateKey rawKey) iv = Some c →
        Z.of_nat (String.length c) ≤ MAX_PAYLOAD_SIZE) →
  let secretId := nanoid8 amb in
  let '(f1, kv1, _) :=
    CreateForm.handleSubmit window rawKey iv locals amb f kv in
  let recipient :=
    Some {| origin := page_origin;
            hash := location_hash (CreateForm.shareUrl f1) |} in
  let '(v1, kv2, _) :=
    ViewSecret.handleReveal recipient secretId masterKey
      ViewSecret.initial kv1 in
  let '(v2, kv3, _) :=
    ViewSecret.handleReveal recipient secretId masterKey
      ViewSecret.initial kv2 in
  CreateForm.state f1 = CreateForm.success ∧
  CreateForm.shareUrl f1
    = createShareUrl window secretId (generateKey rawKey) ∧
  ViewSecret.state v1 = ViewSecret.revealed ∧
  ViewSecret.secret v1 = strip_BOM (toWellFormed (CreateForm.secret f)) ∧
  (toWellFormed (CreateForm.secret f) = CreateForm.secret f →
   head (CreateForm.secret f) ≠ Some BOM →
   ViewSecret.secret v1 = CreateForm.secret f) ∧
  kv2 = delete ("secret:" ++ secretId) kv ∧
  ViewSecret.state v2 = ViewSecret.not_found ∧
  ViewSecret.secret v2 = [] ∧ kv3 = kv2.
Proof.
  intros Hp Ht Hlen Hiv Hc Hw Ho Hid Hcap secretId. subst secretId.
  destruct (encrypt_generated (CreateForm.secret f) rawKey iv Hlen Hiv)
    as (c & He & Hne).
  rewrite (handleSubmit_accepts window rawKey iv locals amb f kv masterKey c)
    by eauto.
  cbn [CreateForm.shareUrl].
  pose proof (getKeyFromHash_share_url window (nanoid8 amb) rawKey page_origin
                Hlen Ho Hid) as Hkey.
  erewrite handleReveal_response; [|exact Hkey|].
  2:{ apply (retrieve_stored_record amb masterKey c _
               (clamp_expiration (Some (CreateForm.expiresIn f))));
        [apply Hc | done | by eapply encrypt_ascii | apply lookup_insert_eq]. }
  cbn [status delivered jsonResponse body Z.eqb].
  rewrite (decrypt_encrypt _ _ iv c Hp Hiv He).
  change (negb (response_ok (delivered c))) with false.
  change (200 =? 404)%positive with false. cbv beta iota.
  rewrite delete_insert_eq.
  erewrite handleReveal_response; [|exact Hkey|].
  2:{ apply onRequestGet_absent; [|apply lookup_delete_eq].
      destruct Hw as (_ & _ & E). rewrite E. lia. }
  change (status not_found =? 404) with true. cbv beta iota.
  cbn [ViewSecret.state ViewSecret.secret ViewSecret.initial].
  split_and!; try done.
  intros Hwf Hbom. by rewrite Hwf, strip_BOM_id.
Qed.

(** X12. A link without a usable key does not burn the secret: without a
    window, or with a hash of fewer than 44 characters, [handleReveal]
    ends in [invalid_key] without any request, and the namespace is not
    touched. *)
Theorem broken_link_keeps_secret window secretId ENCRYPTION_KEY v kv :
  window = None ∨
  (∃ w, window = Some w ∧ (String.length (hash w) < 44)%nat) →
  ViewSecret.handleReveal window secretId ENCRYPTION_KEY v kv
  = ({| ViewSecret.state := ViewSecret.invalid_key;
        ViewSecret.secret := ViewSecret.secret v;
        ViewSecret.error_text := ViewSecret.error_text v |}, kv, []).
Proof.
  intros Hw. unfold ViewSecret.handleReveal.
  destruct (getKeyFromHash window) as [key|] eqn:Hk; [|done].
  exfalso. destruct Hw as [->|(w & -> & Hlen)]; [done|].
  unfold getKeyFromHash in Hk. destruct (hash w) as [|c h]; [done|].
  cbn [String.eqb orb slice1] in Hk.
  destruct (String.length (String c h) <? 2)%nat; [done|].
  destruct (isValidKey h) eqn:Hv; [|done].
  unfold isValidKey in Hv.
  destruct (base64urlToArrayBuffer h) as [buffer|] eqn:E; [|done].
  apply Nat.eqb_eq in Hv. apply base64urlToArrayBuffer_length in E.
  cbn in Hlen. lia.
Qed.

(** X13. A link with a well-formed key that is not the right one burns
    the secret: when the client decryption fails, [handleReveal] ends in
    [error] and shows nothing, but the record has been retrieved and
    deleted, and no later retrieval finds it. *)
Theorem wrong_key_burns_secret window secretId ENCRYPTION_KEY v kv key c :
  getKeyFromHash window = Some key →
  (run (onRequestGet ENCRYPTION_KEY secretId) kv).1.1 = Some (delivered c) →
  decrypt c key = None →
  let '(v1, kv1, _) :=
    ViewSecret.handleReveal window secretId ENCRYPTION_KEY v kv in
  ViewSecret.state v1 = ViewSecret.error ∧
  ViewSecret.error_text v1 = ExceptionMessage ∧
  ViewSecret.secret v1 = ViewSecret.secret v ∧
  kv1 = delete ("secret:" ++ secretId) kv ∧
  (run (onRequestGet ENCRYPTION_KEY secretId) kv1).1.1 = Some not_found.
Proof.
  intros Hk Hrun Hdec.
  destruct (run (onRequestGet ENCRYPTION_KEY secretId) kv) as [[r kv'] log] eqn:E.
  simpl in Hrun. subst r.
  destruct (delivered_deleted _ _ _ _ _ _ E eq_refl) as [Hn ->].
  rewrite (handleReveal_response _ _ _ _ _ key _ _ _ Hk E).
  cbn [status delivered jsonResponse body Z.eqb]. rewrite Hdec.
  change (negb (response_ok (delivered c))) with false.
  change (200 =? 404)%positive with false. cbv beta iota.
  split_and!; [done..|].
  rewrite onRequestGet_absent; [done|done|apply lookup_delete_eq].
Qed.

(** X14. The expiry chosen in the form is the expiry of the secret: for
    each of the four options, and for the form's initial value, the
    [put] that an accepted submission causes carries exactly the chosen
    number of seconds as its TTL. *)
Theorem chosen_expiration_is_stored window rawKey iv locals amb f kv
    masterKey :
  trim (CreateForm.secret f) ≠ [] →
  length rawKey = 32%nat → length iv = 12%nat →
  configured locals masterKey →
  (∀ c, encrypt (CreateForm.secret f) (generateKey rawKey) iv = Some c →
        Z.of_nat (String.length c) ≤ MAX_PAYLOAD_SIZE) →
  CreateForm.expiresIn f ∈ CreateForm.EXPIRATION_OPTIONS.*1 ∨
  CreateForm.expiresIn f = CreateForm.expiresIn CreateForm.initial →
  ∃ value,
    (CreateForm.handleSubmit window rawKey iv locals amb f kv).2
    = [OpPut ("secret:" ++ nanoid8 amb) value (CreateForm.expiresIn f)].
Proof.
  intros Ht Hlen Hiv Hc Hcap Hopt.
  destruct (encrypt_generated (CreateForm.secret f) rawKey iv Hlen Hiv)
    as (c & He & Hne).
  rewrite (handleSubmit_accepts window rawKey iv locals amb f kv masterKey c)
    by eauto.
  cbn [snd]. eexists. do 2 f_equal.
  unfold CreateForm.EXPIRATION_OPTIONS in Hopt. cbn in Hopt.
  rewrite !elem_of_cons, elem_of_nil in Hopt.
  destruct Hopt as [[->|[->|[->|[->|[]]]]]| ->]; reflexivity.
Qed.

End PageFacts.

(* ===================================================================== *)
(** ** Two retrievals in flight *)
(* ===================================================================== *)

Section RaceFacts.
Context {W : WebPlatform}.
Variable ENCRYPTION_KEY : string.
Implicit Types (kv : KVNamespace) (id : string).

Lemma resume_first {A} (p q p' : action A) kv kv' :
  step p kv = (p', kv') → resume 0 (World kv [p; q]) = World kv' [p'; q].
Proof. intros E. unfold resume. cbn. by rewrite E. Qed.

Lemma resume_second {A} (p q q' : action A) kv kv' :
  step q kv = (q', kv') → resume 1 (World kv [p; q]) = World kv' [p; q'].
Proof. intros E. unfold resume. cbn. by rewrite E. Qed.

Lemma step_get_present id kv stored ttl secretData c :
  (6 ≤ String.length id ≤ 12)%nat →
  kv !! ("secret:" ++ id) = Some (stored, ttl) → stored ≠ "" →
  JSON_parse stored = Some secretData →
  serverDecrypt (data secretData) ENCRYPTION_KEY = Some c →
  step (onRequestGet ENCRYPTION_KEY id) kv
  = (KVDelete ("secret:" ++ id) (Return (delivered c)), kv).
Proof.
  intros Hn Hkv Hs Hp Hd.
  rewrite (resume_get ENCRYPTION_KEY id kv stored ttl secretData) by done.
  by rewrite Hd.
Qed.

Lemma step_get_absent id kv :
  (6 ≤ String.length id ≤ 12)%nat →
  kv !! ("secret:" ++ id) = None →
  step (onRequestGet ENCRYPTION_KEY id) kv = (Return not_found, kv).
Proof.
  intros Hn Hkv. unfold onRequestGet.
  assert (String.eqb id "" = false) as ->.
  { destruct id; [simpl in Hn; lia|done]. }
  destruct (Nat.ltb_spec (String.length id) 6); [lia|].
  destruct (Nat.ltb_spec 12 (String.length id)); [lia|].
  cbn [orb try_catch step]. by rewrite Hkv.
Qed.

(** X15. The window of the race.  Each of two retrievals of a stored
    secret makes two calls, the lookup and the removal; of the six ways
    to interleave them, the two in which one request has finished before
    the other starts deliver the secret once and answer the other 404,
    and the four others deliver it to both.  The record is deleted in
    every case. *)
Theorem retrieval_race_window id kv stored ttl secretData c
    (schedule : list nat) :
  (6 ≤ String.length id ≤ 12)%nat →
  kv !! ("secret:" ++ id) = Some (stored, ttl) → stored ≠ "" →
  JSON_parse stored = Some secretData →
  serverDecrypt (data secretData) ENCRYPTION_KEY = Some c →
  schedule ∈ [[0; 0; 1; 1]; [0; 1; 0; 1]; [0; 1; 1; 0];
              [1; 0; 0; 1]; [1; 0; 1; 0]; [1; 1; 0; 0]]%nat →
  interleave schedule
    (World kv [onRequestGet ENCRYPTION_KEY id; onRequestGet ENCRYPTION_KEY id])
  = World (delete ("secret:" ++ id) kv)
      (if decide (schedule = [0; 0; 1; 1]%nat)
       then [Return (delivered c); Return not_found]
       else if decide (schedule = [1; 1; 0; 0]%nat)
            then [Return not_found; Return (delivered c)]
            else [Return (delivered c); Return (delivered c)]).
Proof.
  intros Hn Hkv Hs Hp Hd Hsch.
  pose proof (step_get_present id kv stored ttl secretData c Hn Hkv Hs Hp Hd)
    as Hpresent.
  pose proof (step_get_absent id (delete ("secret:" ++ id) kv) Hn
                (lookup_delete_eq _ _)) as Habsent.
  repeat (apply elem_of_cons in Hsch as [->|Hsch]);
    [..|by apply elem_of_nil in Hsch];
    unfold interleave; cbn [foldl];
    repeat first
      [ erewrite resume_first;
        [|first [exact Hpresent | exact Habsent | reflexivity]]
      | erewrite resume_second;
        [|first [exact Hpresent | exact Habsent | reflexivity]] ];
    rewrite ?delete_delete_eq;
    repeat (case_decide; [try discriminate|]); try done.
Qed.

End RaceFacts.

(* ===================================================================== *)
(** ** The further properties at work on the examples *)
(* ===================================================================== *)

Section FurtherExamples.
Import Example Pages.

Lemma base64_round_trips_witness :
  base64ToArrayBuffer (arrayBufferToBase64 rawKey) = Some rawKey ∧
  base64urlToArrayBuffer (arrayBufferToBase64url rawKey) = Some rawKey ∧
  base64urlToArrayBuffer (arrayBufferToBase64 rawKey) = Some rawKey ∧
  (arrayBufferToBase64url rawKey = arrayBufferToBase64url nonce →
   rawKey = nonce).
Proof. apply (base64_round_trips rawKey nonce). Defined.

Lemma encoding_lengths_witness :
  String.length (arrayBufferToBase64 rawKey) = 44%nat ∧
  String.length (arrayBufferToBase64url rawKey) = 43%nat ∧
  (length rawKey = 32%nat → String.length (generateKey rawKey) = 43%nat).
Proof. apply (encoding_lengths rawKey). Defined.

Lemma isValidKey_shape_witness :
  isValidKey (generateKey rawKey) = true ∧
  (43 ≤ String.length (generateKey rawKey))%nat ∧
  ∃ raw, importKey (generateKey rawKey) = Some raw ∧ length raw = 32%nat.
Proof.
  split; [reflexivity|].
  apply (isValidKey_shape (generateKey rawKey)). reflexivity.
Defined.

Lemma share_link_carries_key_witness :
  let key := generateKey rawKey in
  let url := createShareUrl sender "V1StGXR8" key in
  url = "https://burnvelope.com/view/V1StGXR8#BwcHBwcHBwcHBwcHBwcHBwcHBwcHBwcHBwcHBwcHBwc" ∧
  getKeyFromHash (Some {| origin := "https://burnvelope.com";
                          hash := location_hash url |}) = Some key ∧
  without_fragment url = origin_of sender ++ "/view/" ++ "V1StGXR8".
Proof.
  intros key url. split; [reflexivity|].
  apply (share_link_carries_key sender "V1StGXR8" rawKey
           "https://burnvelope.com"); reflexivity.
Defined.

Lemma getKeyFromHash_sound_witness :
  getKeyFromHash stranger = Some (generateKey (replicate 32 "009"%byte)) ∧
  (∃ w c, stranger = Some w ∧
          hash w = String c (generateKey (replicate 32 "009"%byte)) ∧
          isValidKey (generateKey (replicate 32 "009"%byte)) = true ∧
          (44 ≤ String.length (hash w))%nat) ∧
  getKeyFromHash sender = None.
Proof.
  split; [reflexivity|]. split.
  - apply (getKeyFromHash_sound stranger). reflexivity.
  - apply (getKeyFromHash_sound sender). right. eexists. split; [reflexivity|].
    simpl. lia.
Defined.

Lemma other_secrets_do_not_interfere_witness :
  (run (onRequestGet "AAEC" "V1StGXR8")
     (after_event "AAEC" created
        (Create locals (Some (request None)) another))).1.1
  = (run (onRequestGet "AAEC" "V1StGXR8") created).1.1 ∧
  (run (onRequestGet "AAEC" "V1StGXR8")
     (after_event "AAEC" created (Retrieve "Uakgb_J5"))).1.1
  = (run (onRequestGet "AAEC" "V1StGXR8") created).1.1.
Proof.
  split.
  - apply (other_secrets_do_not_interfere "AAEC" "V1StGXR8" created
             (Create locals (Some (request None)) another)). discriminate.
  - apply (other_secrets_do_not_interfere "AAEC" "V1StGXR8" created
             (Retrieve "Uakgb_J5")). discriminate.
Defined.

Lemma example_configured : configured locals "AAEC".
Proof. split_and!; [reflexivity|reflexivity|discriminate|by eexists]. Defined.

Lemma example_well_drawn : well_drawn ambient.
Proof. split_and!; reflexivity. Defined.

Lemma create_then_retrieve_once_witness :
  let kv1 := (run (POST locals (Some (request (Some 3600))) ambient) ∅).1.2 in
  let kv2 := (run (onRequestGet "AAEC" "V1StGXR8") kv1).1.2 in
  (run (onRequestGet "AAEC" "V1StGXR8") kv1).1.1 = Some (delivered "aGVsbG8=") ∧
  kv2 = delete ("secret:" ++ "V1StGXR8") ∅ ∧
  (run (onRequestGet "AAEC" "V1StGXR8") kv2).1.1 = Some not_found.
Proof.
  apply (create_then_retrieve_once (L := TestPlatform_laws)
           locals (request (Some 3600)) ambient ∅ "AAEC" "aGVsbG8=");
    [apply example_configured | apply example_well_drawn | reflexivity
    | discriminate | reflexivity | vm_compute; discriminate].
Defined.

Lemma payload_within_cap :
  ∀ c, encrypt (CreateForm.secret form) (generateKey rawKey) nonce = Some c →
       Z.of_nat (String.length c) ≤ MAX_PAYLOAD_SIZE.
Proof. intros c H. vm_compute in H. injection H as <-. vm_compute. discriminate. Defined.

Lemma secret_travels_once_witness :
  let '(f1, kv1, _) :=
    CreateForm.handleSubmit sender rawKey nonce locals ambient form ∅ in
  let recipient :=
    Some {| origin := "https://burnvelope.com";
            hash := location_hash (CreateForm.shareUrl f1) |} in
  let '(v1, kv2, _) :=
    ViewSecret.handleReveal recipient "V1StGXR8" "AAEC" ViewSecret.initial kv1 in
  let '(v2, kv3, _) :=
    ViewSecret.handleReveal recipient "V1StGXR8" "AAEC" ViewSecret.initial kv2 in
  CreateForm.state f1 = CreateForm.success ∧
  CreateForm.shareUrl f1
    = createShareUrl sender "V1StGXR8" (generateKey rawKey) ∧
  ViewSecret.state v1 = ViewSecret.revealed ∧
  ViewSecret.secret v1 = strip_BOM (toWellFormed (CreateForm.secret form)) ∧
  (toWellFormed (CreateForm.secret form) = CreateForm.secret form →
   head (CreateForm.secret form) ≠ Some BOM →
   ViewSecret.secret v1 = CreateForm.secret form) ∧
  kv2 = delete ("secret:" ++ "V1StGXR8") ∅ ∧
  ViewSecret.state v2 = ViewSecret.not_found ∧
  ViewSecret.secret v2 = [] ∧ kv3 = kv2.
Proof.
  apply (secret_travels_once (L := TestPlatform_laws) sender
           "https://burnvelope.com" rawKey nonce locals ambient "AAEC" form ∅);
    [reflexivity | vm_compute; discriminate | reflexivity | reflexivity
    | apply example_configured
    | apply example_well_drawn | reflexivity | reflexivity
    | apply payload_within_cap].
Defined.

Lemma broken_link_keeps_secret_witness :
  ViewSecret.handleReveal
    (Some {| origin := "https://burnvelope.com"; hash := "#BwcHBwcH" |})
    "V1StGXR8" "AAEC" ViewSecret.initial submitted
  = ({| ViewSecret.state := ViewSecret.invalid_key;
        ViewSecret.secret := ViewSecret.secret ViewSecret.initial;
        ViewSecret.error_text := ViewSecret.error_text ViewSecret.initial |},
     submitted, []).
Proof.
  apply (broken_link_keeps_secret
           (Some {| origin := "https://burnvelope.com"; hash := "#BwcHBwcH" |})
           "V1StGXR8" "AAEC" ViewSecret.initial submitted).
  right. eexists. split; [reflexivity|]. simpl. lia.
Defined.

Lemma wrong_key_burns_secret_witness :
  let '(v1, kv1, _) :=
    ViewSecret.handleReveal stranger "V1StGXR8" "AAEC" ViewSecret.initial
      submitted in
  ViewSecret.state v1 = ViewSecret.error ∧
  ViewSecret.error_text v1 = ExceptionMessage ∧
  ViewSecret.secret v1 = ViewSecret.secret ViewSecret.initial ∧
  kv1 = delete ("secret:" ++ "V1StGXR8") submitted ∧
  (run (onRequestGet "AAEC" "V1StGXR8") kv1).1.1 = Some not_found.
Proof.
  apply (wrong_key_burns_secret stranger "V1StGXR8" "AAEC" ViewSecret.initial
           submitted (generateKey (replicate 32 "009"%byte)) ciphertext);
    vm_compute; reflexivity.
Defined.

Lemma chosen_expiration_is_stored_witness :
  ∃ value,
    (CreateForm.handleSubmit sender rawKey nonce locals ambient form ∅).2
    = [OpPut ("secret:" ++ nanoid8 ambient) value (CreateForm.expiresIn form)].
Proof.
  apply (chosen_expiration_is_stored sender rawKey
           nonce locals ambient form ∅ "AAEC");
    [vm_compute; discriminate | reflexivity | reflexivity
    | apply example_configured
    | apply payload_within_cap | ].
  left. vm_compute. set_solver.
Defined.

Lemma retrieval_race_window_witness :
  interleave [0; 1; 1; 0]%nat
    (World created [onRequestGet "AAEC" "V1StGXR8";
                    onRequestGet "AAEC" "V1StGXR8"])
  = World (delete ("secret:" ++ "V1StGXR8") created)
      [Return (delivered "aGVsbG8="); Return (delivered "aGVsbG8=")] ∧
  interleave [1; 1; 0; 0]%nat
    (World created [onRequestGet "AAEC" "V1StGXR8";
                    onRequestGet "AAEC" "V1StGXR8"])
  = World (delete ("secret:" ++ "V1StGXR8") created)
      [Return not_found; Return (delivered "aGVsbG8=")].
Proof.
  split.
  - apply (retrieval_race_window "AAEC" "V1StGXR8" created stored_text 3600
             stored_secret "aGVsbG8=" [0; 1; 1; 0]%nat);
      [simpl; lia | vm_compute; reflexivity | discriminate
      | vm_compute; reflexivity | vm_compute; reflexivity
      | do 2 right; by left].
  - apply (retrieval_race_window "AAEC" "V1StGXR8" created stored_text 3600
             stored_secret "aGVsbG8=" [1; 1; 0; 0]%nat);
      [simpl; lia | vm_compute; reflexivity | discriminate
      | vm_compute; reflexivity | vm_compute; reflexivity
      | do 5 right; by left].
Defined.

Lemma POST_errors_witness :
  ∃ r, (run (POST locals None ambient) created).1.1 = Some r ∧
       (body r = CreateSecretResponse (nanoid8 ambient)
                   (now_expiresAt ambient
                    + clamp_expiration (None ≫= expiresIn) * 1000) ∨
        body r ∈ [ErrorResponse "Server configuration error: encryption key not set";
                  ErrorResponse "Missing or invalid encryptedData";
                  ErrorResponse "Payload too large";
                  ErrorResponse "Failed to create secret"]).
Proof. apply (POST_errors locals None ambient created). reflexivity. Defined.

End FurtherExamples.
